(** * Verification of the slice synchronisation logic of BrainViewer (src/Code.py)

    The class [BrainViewer] keeps one 3D cursor in three Tk integer
    variables ([slice_controls]: 'sagittal' holds x, 'coronal' holds y,
    'axial' holds z), mirrors it in three text entries, and converts
    between volume indices and the pixel coordinates of the three
    matplotlib views.  Python floats are modelled by exact rationals [Q];
    Python ints by [Z]; the callbacks are run in a state monad with Python
    exceptions, where an exception keeps the mutations done before it. *)

From Stdlib Require Import ZArith QArith Qround Qminmax List String Ascii Bool Lia.
Import ListNotations.
Open Scope Z_scope.

(** ** Planes and per-plane dictionaries *)

(** The view / plane names used as dictionary keys: 'axial', 'sagittal', 'coronal'. *)
Inductive plane := Axial | Sagittal | Coronal.

(** A Python dict with exactly the three plane keys. *)
Record by_plane (A : Type) := ByPlane { at_axial : A; at_sagittal : A; at_coronal : A }.
Arguments ByPlane {A} _ _ _.
Arguments at_axial {A} _.
Arguments at_sagittal {A} _.
Arguments at_coronal {A} _.

Definition lookup {A} (d : by_plane A) (p : plane) : A :=
  match p with
  | Axial => at_axial d
  | Sagittal => at_sagittal d
  | Coronal => at_coronal d
  end.

Definition store {A} (d : by_plane A) (p : plane) (v : A) : by_plane A :=
  match p with
  | Axial => ByPlane v (at_sagittal d) (at_coronal d)
  | Sagittal => ByPlane (at_axial d) v (at_coronal d)
  | Coronal => ByPlane (at_axial d) (at_sagittal d) v
  end.

Definition const_plane {A} (v : A) : by_plane A := ByPlane v v v.

(** Insertion order of the dicts built in [__init__] / [create_controls]. *)
Definition planes : list plane := [Axial; Sagittal; Coronal].

(** [{'sagittal': 0, 'coronal': 1, 'axial': 2}[plane]] *)
Definition dim_index (p : plane) : nat :=
  match p with Sagittal => 0%nat | Coronal => 1%nat | Axial => 2%nat end.

(** ** The volume ([self.data = nifti_img.get_fdata()]) *)

Record volume := Volume { shape : Z * Z * Z; sample : Z -> Z -> Z -> Q }.

(** [self.data.shape[i]] *)
Definition shape_at (v : volume) (i : nat) : Z :=
  let '(nx, ny, nz) := shape v in
  match i with 0%nat => nx | 1%nat => ny | _ => nz end.

Definition zrange (n : Z) : list Z := map Z.of_nat (seq 0 (Z.to_nat n)).

(** The voxels of the array in C order (what [np.min]/[np.max] reduce over). *)
Definition voxels (v : volume) : list Q :=
  let '(nx, ny, nz) := shape v in
  flat_map (fun x => flat_map (fun y => map (fun z => sample v x y z) (zrange nz))
                               (zrange ny))
           (zrange nx).

Definition list_min (l : list Q) : option Q :=
  match l with [] => None | h :: t => Some (fold_left Qmin t h) end.

Definition list_max (l : list Q) : option Q :=
  match l with [] => None | h :: t => Some (fold_left Qmax t h) end.

(** ** Python / numpy primitives *)

(** [int(f)] on a float: truncation toward zero. *)
Definition py_int_of_float (q : Q) : Z :=
  if Qle_bool 0 q then Qfloor q else - Qfloor (- q).

(** [np.clip(a, lo, hi)] = [minimum(maximum(a, lo), hi)]. *)
Definition np_clip (a lo hi : Q) : Q := Qmin (Qmax a lo) hi.

(** [str(i)] on an int. *)
Definition digit_char (d : Z) : ascii := ascii_of_nat (48 + Z.to_nat d).

Fixpoint digits_rev (fuel : nat) (n : Z) (acc : string) : string :=
  match fuel with
  | O => acc
  | S f =>
      let acc' := String (digit_char (n mod 10)) acc in
      if n <? 10 then acc' else digits_rev f (n / 10) acc'
  end.

Definition py_str (z : Z) : string :=
  let n := Z.abs z in
  let ds := digits_rev (S (Pos.size_nat (Z.to_pos (n + 1)))) n EmptyString in
  if z <? 0 then String "-" ds else ds.

(** [int(s)] on a str (ASCII subset): surrounding whitespace, an optional
    sign, decimal digits with single underscores between digits. *)
Definition is_py_space (c : ascii) : bool :=
  let n := nat_of_ascii c in
  ((9 <=? n) && (n <=? 13))%nat || ((28 <=? n) && (n <=? 32))%nat.

Definition is_digit (c : ascii) : bool :=
  let n := nat_of_ascii c in ((48 <=? n) && (n <=? 57))%nat.

Definition digit_value (c : ascii) : Z := Z.of_nat (nat_of_ascii c) - 48.

Fixpoint lstrip (s : string) : string :=
  match s with
  | String c r => if is_py_space c then lstrip r else s
  | EmptyString => EmptyString
  end.

Fixpoint rev_string (s acc : string) : string :=
  match s with
  | String c r => rev_string r (String c acc)
  | EmptyString => acc
  end.

Definition py_strip (s : string) : string :=
  rev_string (lstrip (rev_string (lstrip s) EmptyString)) EmptyString.

Fixpoint parse_digits (s : string) (acc : Z) (after_us : bool) : option Z :=
  match s with
  | EmptyString => if after_us then None else Some acc
  | String c r =>
      if is_digit c then parse_digits r (acc * 10 + digit_value c) false
      else if (Ascii.eqb c "_"%char) && negb after_us then parse_digits r acc true
      else None
  end.

Definition parse_unsigned (s : string) : option Z :=
  match s with
  | String c _ => if is_digit c then parse_digits s 0 false else None
  | EmptyString => None
  end.

Definition parse_int (s : string) : option Z :=
  match py_strip s with
  | String c r =>
      if Ascii.eqb c "-"%char then option_map Z.opp (parse_unsigned r)
      else if Ascii.eqb c "+"%char then parse_unsigned r
      else parse_unsigned (String c r)
  | EmptyString => None
  end.

(** Strings of decimal digits only. *)
Fixpoint all_digits (s : string) : bool :=
  match s with
  | String c r => is_digit c && all_digits r
  | EmptyString => true
  end.

(** ** Viewer state (the attributes of [BrainViewer]) *)

(** An image created by [ax.imshow]: the index it was sliced at and its clim. *)
Record image := Image { img_index : Z; img_vmin : Q; img_vmax : Q }.

(** A matplotlib [axvline]/[axhline]: visibility and position. *)
Record line := Line { line_visible : bool; line_pos : Q }.

Record viewer := Viewer {
  data : option volume;                    (* self.data *)
  slice_controls : by_plane Z;             (* IntVar per plane: the cursor *)
  slice_entries : by_plane string;         (* StringVar per plane *)
  slider_range : by_plane (Z * Z);         (* from_ / to of the slice ttk.Scale *)
  brightness_var : Q;                      (* DoubleVar *)
  contrast_var : Q;                        (* DoubleVar *)
  mouse_pressed : bool;
  mouse_over_axes : option plane;
  image_plots : by_plane (option image);
  crosshair_lines : by_plane (Q * Q);      (* (vline x, hline y) *)
  temp_lines : by_plane (option (line * line))
    (* (vline, hline) of the hover overlay; None until initialize_plots *)
}.

Definition set_data (d : option volume) (s : viewer) : viewer :=
  Viewer d (slice_controls s) (slice_entries s) (slider_range s) (brightness_var s)
    (contrast_var s) (mouse_pressed s) (mouse_over_axes s) (image_plots s)
    (crosshair_lines s) (temp_lines s).

Definition set_control (p : plane) (v : Z) (s : viewer) : viewer :=
  Viewer (data s) (store (slice_controls s) p v) (slice_entries s) (slider_range s)
    (brightness_var s) (contrast_var s) (mouse_pressed s) (mouse_over_axes s)
    (image_plots s) (crosshair_lines s) (temp_lines s).

Definition set_entry (p : plane) (v : string) (s : viewer) : viewer :=
  Viewer (data s) (slice_controls s) (store (slice_entries s) p v) (slider_range s)
    (brightness_var s) (contrast_var s) (mouse_pressed s) (mouse_over_axes s)
    (image_plots s) (crosshair_lines s) (temp_lines s).

Definition set_slider_range (p : plane) (r : Z * Z) (s : viewer) : viewer :=
  Viewer (data s) (slice_controls s) (slice_entries s) (store (slider_range s) p r)
    (brightness_var s) (contrast_var s) (mouse_pressed s) (mouse_over_axes s)
    (image_plots s) (crosshair_lines s) (temp_lines s).

Definition set_brightness (b : Q) (s : viewer) : viewer :=
  Viewer (data s) (slice_controls s) (slice_entries s) (slider_range s) b
    (contrast_var s) (mouse_pressed s) (mouse_over_axes s) (image_plots s)
    (crosshair_lines s) (temp_lines s).

Definition set_contrast (c : Q) (s : viewer) : viewer :=
  Viewer (data s) (slice_controls s) (slice_entries s) (slider_range s)
    (brightness_var s) c (mouse_pressed s) (mouse_over_axes s) (image_plots s)
    (crosshair_lines s) (temp_lines s).

Definition set_pressed (b : bool) (s : viewer) : viewer :=
  Viewer (data s) (slice_controls s) (slice_entries s) (slider_range s)
    (brightness_var s) (contrast_var s) b (mouse_over_axes s) (image_plots s)
    (crosshair_lines s) (temp_lines s).

Definition set_over (a : option plane) (s : viewer) : viewer :=
  Viewer (data s) (slice_controls s) (slice_entries s) (slider_range s)
    (brightness_var s) (contrast_var s) (mouse_pressed s) a (image_plots s)
    (crosshair_lines s) (temp_lines s).

Definition set_image (p : plane) (i : option image) (s : viewer) : viewer :=
  Viewer (data s) (slice_controls s) (slice_entries s) (slider_range s)
    (brightness_var s) (contrast_var s) (mouse_pressed s) (mouse_over_axes s)
    (store (image_plots s) p i) (crosshair_lines s) (temp_lines s).

Definition set_crosshair (p : plane) (vh : Q * Q) (s : viewer) : viewer :=
  Viewer (data s) (slice_controls s) (slice_entries s) (slider_range s)
    (brightness_var s) (contrast_var s) (mouse_pressed s) (mouse_over_axes s)
    (image_plots s) (store (crosshair_lines s) p vh) (temp_lines s).

Definition set_temp (t : by_plane (option (line * line))) (s : viewer) : viewer :=
  Viewer (data s) (slice_controls s) (slice_entries s) (slider_range s)
    (brightness_var s) (contrast_var s) (mouse_pressed s) (mouse_over_axes s)
    (image_plots s) (crosshair_lines s) t.

Definition hidden_line : line := Line false 0.

(** The state right after [BrainViewer.__init__] (no volume, sliders 0..100,
    entries "0", brightness and contrast sliders at 0). *)
Definition initial_viewer : viewer :=
  Viewer None (const_plane 0) (const_plane "0"%string) (const_plane (0, 100))
    0%Q 0%Q false None (const_plane None) (const_plane (0%Q, 0%Q))
    (const_plane None).

(** ** Callbacks: a state monad with Python exceptions *)

Inductive exn := IndexError | ValueError | TypeError | AttributeError.

Definition exn_eqb (a b : exn) : bool :=
  match a, b with
  | IndexError, IndexError | ValueError, ValueError
  | TypeError, TypeError | AttributeError, AttributeError => true
  | _, _ => false
  end.

Inductive outcome (A : Type) := Ret (a : A) | Raise (e : exn).
Arguments Ret {A} _.
Arguments Raise {A} _.

Definition M (A : Type) := viewer -> viewer * outcome A.

Definition ret {A} (a : A) : M A := fun s => (s, Ret a).
Definition raise {A} (e : exn) : M A := fun s => (s, Raise e).
Definition bind {A B} (m : M A) (k : A -> M B) : M B :=
  fun s => let (s', r) := m s in
           match r with Ret a => k a s' | Raise e => (s', Raise e) end.
Definition get : M viewer := fun s => (s, Ret s).
Definition modify (f : viewer -> viewer) : M unit := fun s => (f s, Ret tt).

Notation "x <- m ;; k" := (bind m (fun x => k))
  (at level 61, m at next level, right associativity).
Notation "m ;;; k" := (bind m (fun _ : unit => k))
  (at level 61, right associativity).

(** [try: m  except e: h] *)
Definition try_except {A} (m : M A) (e : exn) (h : M A) : M A :=
  fun s => let (s', r) := m s in
           match r with
           | Raise e' => if exn_eqb e e' then h s' else (s', r)
           | Ret _ => (s', r)
           end.

(** [try: m  except Exception: h] *)
Definition try_any {A} (m : M A) (h : M A) : M A :=
  fun s => let (s', r) := m s in
           match r with Raise _ => h s' | Ret _ => (s', r) end.

(** [for x in l: f(x)] *)
Fixpoint for_each {X} (l : list X) (f : X -> M unit) : M unit :=
  match l with [] => ret tt | x :: t => f x ;;; for_each t f end.

(** [np.min(a)] / [np.max(a)]: a zero-size array raises ValueError. *)
Definition np_min (l : list Q) : M Q :=
  match list_min l with Some m => ret m | None => raise ValueError end.
Definition np_max (l : list Q) : M Q :=
  match list_max l with Some m => ret m | None => raise ValueError end.

(** Integer indexing along an axis of length [n]: negative indices wrap,
    anything outside [-n, n) raises IndexError. *)
Definition np_index (n i : Z) : M Z :=
  if (- n <=? i) && (i <? n) then ret (if i <? 0 then i + n else i)
  else raise IndexError.

(** ** The widgets of [control_frame] (as built by [create_controls]) *)

Inductive tk_var := SliceVar (p : plane) | BrightnessVar | ContrastVar.

Inductive child := WLabel | WButton | WFrame | WScale (v : tk_var).

Definition tk_var_eqb (a b : tk_var) : bool :=
  match a, b with
  | SliceVar Axial, SliceVar Axial | SliceVar Sagittal, SliceVar Sagittal
  | SliceVar Coronal, SliceVar Coronal
  | BrightnessVar, BrightnessVar | ContrastVar, ContrastVar => true
  | _, _ => false
  end.

(** Label, Button, then per plane a Frame (holding label and entry) and the
    slice Scale, then the brightness and contrast Labels and Scales. *)
Definition control_frame_children : list child :=
  [WLabel; WButton]
  ++ flat_map (fun p => [WFrame; WScale (SliceVar p)]) planes
  ++ [WLabel; WScale BrightnessVar; WLabel; WScale ContrastVar].

(** [for child in ...: if isinstance(child, ttk.Scale) and
    child.cget('variable') == str(var): child.configure(from_=lo, to=hi); break] *)
Fixpoint configure_scale_of (cs : list child) (v : tk_var) (lo hi : Z) : M unit :=
  match cs with
  | [] => ret tt
  | WScale w :: t =>
      if tk_var_eqb w v then
        match w with
        | SliceVar p => modify (set_slider_range p (lo, hi))
        | _ => ret tt
        end
      else configure_scale_of t v lo hi
  | _ :: t => configure_scale_of t v lo hi
  end.

(** ** The methods of [BrainViewer] *)

Definition initialize_slice_positions : M unit :=
  s <- get ;;
  match data s with
  | None => ret tt
  | Some d =>
      for_each planes (fun p =>
        let max_val := shape_at d (dim_index p) - 1 in
        let middle_val := max_val / 2 in
        modify (set_control p middle_val) ;;;
        modify (set_entry p (py_str middle_val)) ;;;
        configure_scale_of control_frame_children (SliceVar p) 0 max_val)
  end.

(** [self.data] is [None] only before a load, where the method is not called;
    numpy would then fail on [None - None] with a TypeError. *)
Definition get_slice_display_params : M (Q * Q) :=
  s <- get ;;
  let brightness := (brightness_var s / 100)%Q in
  let contrast := ((contrast_var s + 100) / 100)%Q in
  match data s with
  | None => raise TypeError
  | Some d =>
      data_min <- np_min (voxels d) ;;
      data_max <- np_max (voxels d) ;;
      let data_range := (data_max - data_min)%Q in
      ret ((data_min + brightness * data_range)%Q, (data_max * contrast)%Q)
  end.

(** The three slices: [data[:, :, z]], [data[x, :, :]], [data[:, y, :]]
    (rot90 and flip do not index); the result is the normalised index. *)
Definition extract_slices (d : volume) (s : viewer) : M (by_plane Z) :=
  let x := lookup (slice_controls s) Sagittal in
  let y := lookup (slice_controls s) Coronal in
  let z := lookup (slice_controls s) Axial in
  ia <- np_index (shape_at d 2) z ;;
  isg <- np_index (shape_at d 0) x ;;
  ic <- np_index (shape_at d 1) y ;;
  ret (ByPlane ia isg ic).

(** The crosshair positions written by [update_crosshairs]:
    (vline x, hline y) of each view. *)
Definition crosshair_pos (d : volume) (p : plane) (x y z : Z) : Z * Z :=
  match p with
  | Axial => (x, shape_at d 1 - y - 1)
  | Sagittal => (shape_at d 1 - y - 1, z)
  | Coronal => (x, z)
  end.

Definition update_crosshairs : M unit :=
  s <- get ;;
  match data s with
  | None => ret tt
  | Some d =>
      let x := lookup (slice_controls s) Sagittal in
      let y := lookup (slice_controls s) Coronal in
      let z := lookup (slice_controls s) Axial in
      for_each planes (fun p =>
        let '(v, h) := crosshair_pos d p x y z in
        modify (set_crosshair p (inject_Z v, inject_Z h)))
  end.

Definition update_image_data : M unit :=
  s <- get ;;
  match data s with
  | None => ret tt
  | Some d =>
      params <- get_slice_display_params ;;
      slices <- extract_slices d s ;;
      for_each planes (fun p =>
        s' <- get ;;
        match lookup (image_plots s') p with
        | None => raise AttributeError
        | Some _ =>
            modify (set_image p (Some (Image (lookup slices p) (fst params) (snd params))))
        end)
  end.

Definition update_temp_crosshairs (inaxes : option plane) (xdata ydata : Q) : M unit :=
  match inaxes with
  | None => ret tt
  | Some view_name =>
      s <- get ;;
      match data s with
      | None => ret tt
      | Some _ =>
          for_each planes (fun p =>
            s' <- get ;;
            match lookup (temp_lines s') p with
            | None => raise AttributeError      (* None.set_visible *)
            | Some (v, h) =>
                modify (set_temp (store (temp_lines s') p
                          (Some (Line false (line_pos v), Line false (line_pos h)))))
            end) ;;;
          s' <- get ;;
          match lookup (temp_lines s') view_name with
          | None => raise AttributeError
          | Some _ =>
              modify (set_temp (store (temp_lines s') view_name
                        (Some (Line true xdata, Line true ydata))))
          end
      end
  end.

Definition update_cursor_position (inaxes : option plane) (xdata ydata : Q) : M unit :=
  match inaxes with
  | None => ret tt
  | Some view_name =>
      s <- get ;;
      match data s with
      | None => ret tt
      | Some d =>
          let x := py_int_of_float (np_clip xdata 0 (inject_Z (shape_at d 0 - 1))) in
          let y := py_int_of_float (np_clip ydata 0 (inject_Z (shape_at d 1 - 1))) in
          (match view_name with
           | Axial =>
               let coronal_y := shape_at d 1 - y - 1 in
               modify (set_control Sagittal x) ;;;
               modify (set_control Coronal coronal_y) ;;;
               modify (set_entry Sagittal (py_str x)) ;;;
               modify (set_entry Coronal (py_str coronal_y))
           | Sagittal =>
               let coronal_x := shape_at d 1 - x - 1 in
               modify (set_control Coronal coronal_x) ;;;
               modify (set_control Axial y) ;;;
               modify (set_entry Coronal (py_str coronal_x)) ;;;
               modify (set_entry Axial (py_str y))
           | Coronal =>
               modify (set_control Sagittal x) ;;;
               modify (set_control Axial y) ;;;
               modify (set_entry Sagittal (py_str x)) ;;;
               modify (set_entry Axial (py_str y))
           end) ;;;
          update_image_data ;;;
          update_crosshairs
      end
  end.

Definition on_entry_change (p : plane) : M unit :=
  try_except
    (s <- get ;;
     match parse_int (lookup (slice_entries s) p) with
     | None => raise ValueError
     | Some value0 =>
         let value := match data s with
                      | Some d => Z.max 0 (Z.min value0 (shape_at d (dim_index p) - 1))
                      | None => value0
                      end in
         modify (set_control p value) ;;;
         modify (set_entry p (py_str value)) ;;;
         update_image_data ;;;
         update_crosshairs
     end)
    ValueError
    (s <- get ;; modify (set_entry p (py_str (lookup (slice_controls s) p)))).

Definition on_slider_change (value : Q) (p : plane) : M unit :=
  modify (set_entry p (py_str (py_int_of_float value))) ;;;
  update_image_data ;;;
  update_crosshairs.

Definition update_display : M unit := update_image_data ;;; update_crosshairs.

Definition initialize_plots : M unit :=
  s <- get ;;
  match data s with
  | None => ret tt
  | Some d =>
      params <- get_slice_display_params ;;
      slices <- extract_slices d s ;;
      for_each planes (fun p =>
        modify (set_image p (Some (Image (lookup slices p) (fst params) (snd params)))) ;;;
        modify (set_crosshair p (0%Q, 0%Q)) ;;;
        modify (fun s' => set_temp (store (temp_lines s') p (Some (hidden_line, hidden_line))) s')) ;;;
      update_crosshairs
  end.

(** [choice] is the volume read from the chosen file; [None] when the dialog
    is cancelled or [nib.load]/[get_fdata] raise, both before [self.data] is
    assigned.  Every exception is caught by [except Exception]. *)
Definition load_nifti (choice : option volume) : M unit :=
  try_any
    (match choice with
     | None => ret tt
     | Some d =>
         modify (set_data (Some d)) ;;;
         initialize_slice_positions ;;;
         initialize_plots
     end)
    (ret tt).

Definition on_axes_enter (inaxes : option plane) : M unit := modify (set_over inaxes).

Definition on_axes_leave : M unit :=
  modify (set_over None) ;;; update_image_data ;;; update_crosshairs.

Definition on_motion (inaxes : option plane) (xdata ydata : Q) : M unit :=
  match inaxes with
  | None => ret tt
  | Some _ =>
      s <- get ;;
      match data s with
      | None => ret tt
      | Some _ =>
          if mouse_pressed s then update_cursor_position inaxes xdata ydata
          else update_temp_crosshairs inaxes xdata ydata
      end
  end.

Definition on_click (inaxes : option plane) (xdata ydata : Q) : M unit :=
  match inaxes with
  | None => ret tt
  | Some _ =>
      s <- get ;;
      match data s with
      | None => ret tt
      | Some _ => modify (set_pressed true) ;;; update_cursor_position inaxes xdata ydata
      end
  end.

Definition on_release : M unit := modify (set_pressed false).

(** ** The Tk / matplotlib event loop *)

(** Input events.  Pointer events carry [event.inaxes] and the float data
    coordinates [event.xdata], [event.ydata]. *)
Inductive event :=
| EvLoad (choice : option volume)            (* "Select File" *)
| EvSlider (p : plane) (value : Q)           (* slice Scale moved *)
| EvEntry (p : plane) (text : string)        (* text typed, then Return / FocusOut *)
| EvBrightness (value : Q)
| EvContrast (value : Q)
| EvPress (inaxes : option plane) (xdata ydata : Q)
| EvMotion (inaxes : option plane) (xdata ydata : Q)
| EvRelease
| EvEnter (inaxes : option plane)
| EvLeave.

(** A ttk.Scale keeps its value within its range before it writes the
    variable and calls its command. *)
Definition scale_value (lo hi : Q) (v : Q) : Q := Qmin (Qmax v lo) hi.

Definition handle (ev : event) : M unit :=
  match ev with
  | EvLoad choice => load_nifti choice
  | EvSlider p value =>
      s <- get ;;
      let '(lo, hi) := lookup (slider_range s) p in
      let v := scale_value (inject_Z lo) (inject_Z hi) value in
      modify (set_control p (py_int_of_float v)) ;;;
      on_slider_change v p
  | EvEntry p text => modify (set_entry p text) ;;; on_entry_change p
  | EvBrightness value =>
      modify (set_brightness (scale_value (-100) 100 value)) ;;; update_display
  | EvContrast value =>
      modify (set_contrast (scale_value (-100) 100 value)) ;;; update_display
  | EvPress inaxes xdata ydata => on_click inaxes xdata ydata
  | EvMotion inaxes xdata ydata => on_motion inaxes xdata ydata
  | EvRelease => on_release
  | EvEnter inaxes => on_axes_enter inaxes
  | EvLeave => on_axes_leave
  end.

(** An exception escaping a callback is reported by Tk / matplotlib and the
    main loop goes on with the state as the callback left it. *)
Definition step (s : viewer) (ev : event) : viewer := fst (handle ev s).

Definition run (evs : list event) (s : viewer) : viewer := fold_left step evs s.

(** ** Properties of the model *)

Definition well_formed_volume (d : volume) : Prop :=
  let '(nx, ny, nz) := shape d in 0 < nx /\ 0 < ny /\ 0 < nz.

(** A slice extraction is in bounds when each index lies in [0, dim). *)
Definition slice_indices_in_bounds (s : viewer) : Prop :=
  match data s with
  | None => True
  | Some d =>
      lookup (slice_controls s) Axial < shape_at d 2 /\
      lookup (slice_controls s) Sagittal < shape_at d 0 /\
      lookup (slice_controls s) Coronal < shape_at d 1
  end.

(** The hover overlay is hidden in every view (lines not yet created show
    nothing). *)
Definition hover_overlay_hidden (s : viewer) : Prop :=
  forall p, match lookup (temp_lines s) p with
            | None => True
            | Some (v, h) => line_visible v = false /\ line_visible h = false
            end.

(** What a redraw touches: images and crosshairs only. *)
Definition cursor_view (s : viewer) : option volume * by_plane Z * by_plane (Z * Z) :=
  (data s, slice_controls s, slider_range s).

(** Everything but the hover overlay. *)
Definition all_but_temp (s : viewer) : viewer := set_temp (const_plane None) s.

(** Concrete volumes and states used to evaluate the model. *)
Definition ramp_volume (nx ny nz : Z) : volume :=
  Volume (nx, ny, nz) (fun x y z => inject_Z (x + y + z)).

Definition volume_10_20_30 : volume := ramp_volume 10 20 30.

Definition loaded_10_20_30 : viewer := run [EvLoad (Some volume_10_20_30)] initial_viewer.

Definition volume_10_20_5 : volume := ramp_volume 10 20 5.

Definition loaded_10_20_5 : viewer := run [EvLoad (Some volume_10_20_5)] initial_viewer.

Definition coronal_click_10_20_5 : viewer := step loaded_10_20_5 (EvPress (Some Coronal) 0 19).

Definition hovered_10_20_30 : viewer := step loaded_10_20_30 (EvMotion (Some Axial) 3 4).

Definition hovered_pressed_10_20_30 : viewer := step hovered_10_20_30 (EvPress (Some Axial) 3 4).

Definition entry_7 : viewer := step loaded_10_20_30 (EvEntry Coronal "7").

(** Intensities 0 and 200 only. *)
Definition volume_0_200 : volume :=
  Volume (2, 1, 1) (fun x _ _ => inject_Z (200 * x)).

Definition bright_50 : viewer := run [EvLoad (Some volume_0_200); EvBrightness 50] initial_viewer.

Definition plane_eqb (p q : plane) : bool :=
  match p, q with
  | Axial, Axial | Sagittal, Sagittal | Coronal, Coronal => true
  | _, _ => false
  end.

(** Volumes whose axes grow from x to z, [1 <= Nx <= Ny <= Nz]. *)
Definition ordered_volume (d : volume) : Prop :=
  let '(nx, ny, nz) := shape d in 1 <= nx <= ny /\ ny <= nz.

(** Every cursor component lies in [0, dim) of its axis. *)
Definition cursor_in_range (d : volume) (c : by_plane Z) : Prop :=
  forall p, 0 <= lookup c p < shape_at d (dim_index p).

(** The invariant of a viewer holding an ordered volume: cursor in range,
    every slice Scale ranging over [0, dim - 1]. *)
Definition viewer_ok (s : viewer) : Prop :=
  match data s with
  | None => True
  | Some d =>
      ordered_volume d /\ cursor_in_range d (slice_controls s) /\
      forall p, lookup (slider_range s) p = (0, shape_at d (dim_index p) - 1)
  end.

(** Events that load, if anything, an ordered volume. *)
Definition loads_ordered (ev : event) : Prop :=
  match ev with EvLoad (Some d) => ordered_volume d | _ => True end.

(** The volume and the slider ranges. *)
Definition data_ranges (s : viewer) : option volume * by_plane (Z * Z) :=
  (data s, slider_range s).

(** *** Frame reasoning: [m] leaves the projection [f] of the state unchanged,
    whether it returns or raises. *)

Definition keeps {A B} (f : viewer -> B) (m : M A) : Prop :=
  forall s, f (fst (m s)) = f s.

Section Frame.
Context {B : Type} (f : viewer -> B).

Lemma keeps_ret {A} (a : A) : keeps f (ret a).
Proof. intro s; reflexivity. Qed.

Lemma keeps_raise {A} (e : exn) : keeps f (@raise A e).
Proof. intro s; reflexivity. Qed.

Lemma keeps_get : keeps f get.
Proof. intro s; reflexivity. Qed.

Lemma keeps_modify (g : viewer -> viewer) :
  (forall s, f (g s) = f s) -> keeps f (modify g).
Proof. intros H s; apply H. Qed.

Lemma keeps_bind {A C} (m : M A) (k : A -> M C) :
  keeps f m -> (forall a, keeps f (k a)) -> keeps f (bind m k).
Proof.
  intros Hm Hk s; unfold bind.
  specialize (Hm s); destruct (m s) as [s' [a | e]]; simpl in *.
  - rewrite Hk; exact Hm.
  - exact Hm.
Qed.

Lemma keeps_try_except {A} (m h : M A) (e : exn) :
  keeps f m -> keeps f h -> keeps f (try_except m e h).
Proof.
  intros Hm Hh s; unfold try_except.
  specialize (Hm s); destruct (m s) as [s' [a | e']]; simpl in *; auto.
  destruct (exn_eqb e e'); simpl; [rewrite Hh|]; auto.
Qed.

Lemma keeps_try_any {A} (m h : M A) :
  keeps f m -> keeps f h -> keeps f (try_any m h).
Proof.
  intros Hm Hh s; unfold try_any.
  specialize (Hm s); destruct (m s) as [s' [a | e']]; simpl in *; auto.
  rewrite Hh; auto.
Qed.

Lemma keeps_for_each {X} (l : list X) (g : X -> M unit) :
  (forall x, keeps f (g x)) -> keeps f (for_each l g).
Proof.
  intro Hg; induction l as [|x t IH]; simpl.
  - apply keeps_ret.
  - apply keeps_bind; [apply Hg | intros; exact IH].
Qed.

(** The state projection after [m1 ;;; m2] is the one after [m1] when
    [m2] keeps it. *)
Lemma keeps_seq_fst {A} (m1 : M unit) (m2 : M A) s :
  keeps f m2 -> f (fst ((m1 ;;; m2) s)) = f (fst (m1 s)).
Proof.
  intros H; unfold bind; destruct (m1 s) as [s' [[] | e]]; simpl; auto.
Qed.
End Frame.

Lemma try_any_ret_fst {A} (m : M A) (a : A) s :
  fst (try_any m (ret a) s) = fst (m s).
Proof. unfold try_any; destruct (m s) as [s' [b | e]]; reflexivity. Qed.

Ltac keeps_step :=
  match goal with
  | |- keeps _ (bind _ _) => apply keeps_bind; [|intro]
  | |- keeps _ (ret _) => apply keeps_ret
  | |- keeps _ (raise _) => apply keeps_raise
  | |- keeps _ get => apply keeps_get
  | |- keeps _ (modify _) => apply keeps_modify; intro; reflexivity
  | |- keeps _ (for_each _ _) => apply keeps_for_each; intro
  | |- keeps _ (try_except _ _ _) => apply keeps_try_except
  | |- keeps _ (try_any _ _) => apply keeps_try_any
  | |- keeps _ (match ?x with _ => _ end) => destruct x
  end.

Ltac keeps_tac := repeat keeps_step.

Lemma update_image_data_keeps_cursor : keeps cursor_view update_image_data.
Proof.
  unfold update_image_data, get_slice_display_params, extract_slices, np_min, np_max, np_index.
  keeps_tac.
Qed.

Lemma update_crosshairs_keeps_cursor : keeps cursor_view update_crosshairs.
Proof. unfold update_crosshairs; keeps_tac. Qed.

Lemma initialize_plots_keeps_cursor : keeps cursor_view initialize_plots.
Proof.
  unfold initialize_plots, get_slice_display_params, extract_slices, np_min, np_max, np_index.
  keeps_tac; apply update_crosshairs_keeps_cursor.
Qed.

Lemma update_temp_crosshairs_keeps_rest inaxes xd yd :
  keeps all_but_temp (update_temp_crosshairs inaxes xd yd).
Proof. unfold update_temp_crosshairs; keeps_tac. Qed.

Lemma update_image_data_keeps_temp : keeps temp_lines update_image_data.
Proof.
  unfold update_image_data, get_slice_display_params, extract_slices, np_min, np_max, np_index.
  keeps_tac.
Qed.

Lemma update_crosshairs_keeps_temp : keeps temp_lines update_crosshairs.
Proof. unfold update_crosshairs; keeps_tac. Qed.

Lemma keeps_cursor_controls {A} (m : M A) p :
  keeps cursor_view m -> keeps (fun s => lookup (slice_controls s) p) m.
Proof. intros H s; specialize (H s); unfold cursor_view in H; injection H as _ H _; now rewrite H. Qed.

Lemma redraw_keeps_controls p :
  keeps (fun s => lookup (slice_controls s) p) (update_image_data ;;; update_crosshairs).
Proof.
  apply keeps_bind; intros; apply keeps_cursor_controls;
    [apply update_image_data_keeps_cursor | apply update_crosshairs_keeps_cursor].
Qed.

Lemma redraw_after_controls (m1 : M unit) p s :
  lookup (slice_controls (fst ((m1 ;;; (update_image_data ;;; update_crosshairs)) s))) p
  = lookup (slice_controls (fst (m1 s))) p.
Proof. exact (keeps_seq_fst (fun s => lookup (slice_controls s) p) m1 _ s (redraw_keeps_controls p)). Qed.

(** C6: a click or drag on view [v] never changes the cursor component that
    [v] does not address; that component is the slice index of [v] itself
    (z for axial, x for sagittal, y for coronal). *)
Theorem click_keeps_unaddressed_axis (v : plane) (xdata ydata : Q) (s : viewer) :
  lookup (slice_controls (fst (update_cursor_position (Some v) xdata ydata s))) v
  = lookup (slice_controls s) v.
Proof.
  revert s; change (keeps (fun s => lookup (slice_controls s) v)
                          (update_cursor_position (Some v) xdata ydata)).
  unfold update_cursor_position.
  apply keeps_bind; [apply keeps_get | intros s].
  destruct (data s) as [d |]; [| apply keeps_ret].
  apply keeps_bind; [| intros; apply redraw_keeps_controls].
  destruct v; keeps_tac.
Qed.

(** C4: on a volume of shape (10,20,30), a click on the axial view at pixel
    (3,5) sets x = 3 and y = 20 - 5 - 1 = 14 and leaves z unchanged. *)
Theorem axial_click_scenario (s : viewer) (d : volume)
  (Hd : data s = Some d) (Hshape : shape d = (10, 20, 30)) :
  let s' := step s (EvPress (Some Axial) 3 5) in
  lookup (slice_controls s') Sagittal = 3 /\
  lookup (slice_controls s') Coronal = 14 /\
  lookup (slice_controls s') Axial = lookup (slice_controls s) Axial.
Proof.
  unfold step, handle, on_click.
  cbn [bind get]. rewrite Hd.
  unfold bind at 1, modify; cbn [fst snd].
  unfold update_cursor_position.
  cbn [bind get]. cbn [data set_pressed]. rewrite Hd.
  assert (H0 : shape_at d 0 = 10) by (unfold shape_at; rewrite Hshape; reflexivity).
  assert (H1 : shape_at d 1 = 20) by (unfold shape_at; rewrite Hshape; reflexivity).
  rewrite H0, H1, !redraw_after_controls.
  repeat split; reflexivity.
Qed.

Lemma Qmin_cases (a b : Q) : Qmin a b = a \/ Qmin a b = b.
Proof. unfold Qmin, GenericMinMax.gmin; destruct (a ?= b)%Q; auto. Qed.

Lemma Qmax_cases (a b : Q) : Qmax a b = a \/ Qmax a b = b.
Proof. unfold Qmax, GenericMinMax.gmax; destruct (a ?= b)%Q; auto. Qed.

Lemma fold_min_spec (t : list Q) (h : Q) :
  In (fold_left Qmin t h) (h :: t) /\
  (fold_left Qmin t h <= h)%Q /\ (forall x, In x t -> (fold_left Qmin t h <= x)%Q).
Proof.
  revert h; induction t as [|a t IH]; intros h; simpl.
  - split; [auto | split; [apply Qle_refl | tauto]].
  - destruct (IH (Qmin h a)) as (Hin & Hle & Hall).
    split; [| split].
    + set (r := fold_left Qmin t (Qmin h a)) in *.
      destruct (Qmin_cases h a) as [E | E]; rewrite E in Hin; simpl in Hin; tauto.
    + eapply Qle_trans; [exact Hle | apply Q.le_min_l].
    + intros x [<- | Hx]; [eapply Qle_trans; [exact Hle | apply Q.le_min_r] | auto].
Qed.

Lemma fold_max_spec (t : list Q) (h : Q) :
  In (fold_left Qmax t h) (h :: t) /\
  (h <= fold_left Qmax t h)%Q /\ (forall x, In x t -> (x <= fold_left Qmax t h)%Q).
Proof.
  revert h; induction t as [|a t IH]; intros h; simpl.
  - split; [auto | split; [apply Qle_refl | tauto]].
  - destruct (IH (Qmax h a)) as (Hin & Hle & Hall).
    split; [| split].
    + set (r := fold_left Qmax t (Qmax h a)) in *.
      destruct (Qmax_cases h a) as [E | E]; rewrite E in Hin; simpl in Hin; tauto.
    + eapply Qle_trans; [apply Q.le_max_l | exact Hle].
    + intros x [<- | Hx]; [eapply Qle_trans; [apply Q.le_max_r | exact Hle] | auto].
Qed.

(** [list_min] is the least voxel, [list_max] the greatest. *)
Lemma list_min_spec (l : list Q) (m : Q) :
  list_min l = Some m -> In m l /\ forall x, In x l -> (m <= x)%Q.
Proof.
  destruct l as [|h t]; simpl; [discriminate|]; intros E; injection E as <-.
  destruct (fold_min_spec t h) as (Hin & Hle & Hall).
  split; [exact Hin | intros x [<- | Hx]; auto].
Qed.

Lemma list_max_spec (l : list Q) (m : Q) :
  list_max l = Some m -> In m l /\ forall x, In x l -> (x <= m)%Q.
Proof.
  destruct l as [|h t]; simpl; [discriminate|]; intros E; injection E as <-.
  destruct (fold_max_spec t h) as (Hin & Hle & Hall).
  split; [exact Hin | intros x [<- | Hx]; auto].
Qed.

Lemma voxels_head (d : volume) :
  well_formed_volume d -> exists t, voxels d = sample d 0 0 0 :: t.
Proof.
  unfold well_formed_volume, voxels; destruct (shape d) as [[nx ny] nz].
  intros (Hx & Hy & Hz); unfold zrange.
  destruct (Z.to_nat nx) eqn:Ex; [lia|].
  destruct (Z.to_nat ny) eqn:Ey; [lia|].
  destruct (Z.to_nat nz) eqn:Ez; [lia|].
  simpl; eexists; reflexivity.
Qed.

(** C3: for a (non-empty) volume the display range is
    vmin = dataMin + (brightness/100) * (dataMax - dataMin) and
    vmax = dataMax * ((contrast + 100)/100), dataMin and dataMax being the
    least and greatest voxel. *)
Theorem display_params_formula (s : viewer) (d : volume)
  (Hd : data s = Some d) (Hwf : well_formed_volume d) :
  exists data_min data_max,
    list_min (voxels d) = Some data_min /\ list_max (voxels d) = Some data_max /\
    get_slice_display_params s =
      (s, Ret ((data_min + brightness_var s / 100 * (data_max - data_min))%Q,
               (data_max * ((contrast_var s + 100) / 100))%Q)).
Proof.
  destruct (voxels_head d Hwf) as [t Ht].
  unfold get_slice_display_params, np_min, np_max; cbn [bind get].
  rewrite Hd, Ht; cbn [list_min list_max].
  do 2 eexists; split; [reflexivity | split; [reflexivity | reflexivity]].
Qed.

(** C7: with brightness 0 and contrast 0 the display range of a (non-empty)
    volume is exactly [dataMin, dataMax]. *)
Theorem neutral_display_params (s : viewer) (d : volume)
  (Hd : data s = Some d) (Hwf : well_formed_volume d)
  (Hb : (brightness_var s == 0)%Q) (Hc : (contrast_var s == 0)%Q) :
  exists data_min data_max vmin vmax,
    list_min (voxels d) = Some data_min /\ list_max (voxels d) = Some data_max /\
    get_slice_display_params s = (s, Ret (vmin, vmax)) /\
    (vmin == data_min)%Q /\ (vmax == data_max)%Q.
Proof.
  destruct (voxels_head d Hwf) as [t Ht].
  unfold get_slice_display_params, np_min, np_max; cbn [bind get].
  rewrite Hd, Ht; cbn [list_min list_max].
  do 4 eexists; split; [reflexivity | split; [reflexivity | split; [reflexivity |]]].
  rewrite Hb, Hc; split; field.
Qed.

(** C5: committing a text entry that does not parse as an int only rewrites
    that entry to the str of the axis' current value; the cursor and every
    other part of the state are unchanged, and no exception escapes. *)
Theorem entry_parse_failure_reverts (p : plane) (text : string) (s : viewer)
  (Hparse : parse_int text = None) :
  handle (EvEntry p text) s = (set_entry p (py_str (lookup (slice_controls s) p)) s, Ret tt).
Proof.
  unfold handle, on_entry_change, try_except.
  destruct p; cbn -[parse_int py_str]; rewrite Hparse; reflexivity.
Qed.

(** C10: right after a volume is loaded, each axis' cursor component is the
    middle slice (dim - 1) // 2 and its slider range is [0, dim - 1]. *)
Theorem load_initializes_middle_slices (d : volume) (s : viewer) (p : plane) :
  let s' := step s (EvLoad (Some d)) in
  data s' = Some d /\
  lookup (slice_controls s') p = (shape_at d (dim_index p) - 1) / 2 /\
  lookup (slider_range s') p = (0, shape_at d (dim_index p) - 1).
Proof.
  cbv zeta; unfold step, handle, load_nifti; rewrite try_any_ret_fst.
  cbn [bind modify].
  assert (E := keeps_seq_fst cursor_view initialize_slice_positions initialize_plots
                 (set_data (Some d) s) initialize_plots_keeps_cursor).
  unfold bind in E |- *. 
  revert E; generalize (fst (let (s', r) := initialize_slice_positions (set_data (Some d) s) in
             match r with Ret _ => initialize_plots s' | Raise e => (s', Raise e) end)).
  intros s' E; unfold cursor_view in E.
  unfold initialize_slice_positions in E; cbn in E.
  injection E as -> -> ->.
  destruct p; cbn; auto.
Qed.

Lemma set_temp_change (t t' : by_plane (option (line * line))) (x y : viewer) :
  set_temp t' x = set_temp t' y -> set_temp t x = set_temp t y.
Proof.
  destruct x, y; unfold set_temp; cbn; intros E; injection E; intros; subst; reflexivity.
Qed.

Lemma on_axes_leave_keeps_temp : keeps temp_lines on_axes_leave.
Proof.
  unfold on_axes_leave; keeps_tac;
    [apply update_image_data_keeps_temp | apply update_crosshairs_keeps_temp].
Qed.

(** C8 (amended): a motion event with no button held changes nothing but the
    hover overlay; leaving a view leaves the hover overlay as it was. *)
Theorem hover_only_touches_overlay (s : viewer) (inaxes : option plane) (xdata ydata : Q) :
  (mouse_pressed s = false ->
   set_temp (temp_lines s) (step s (EvMotion inaxes xdata ydata)) = s) /\
  temp_lines (step s EvLeave) = temp_lines s.
Proof.
  split; [intros Hup | apply on_axes_leave_keeps_temp].
  assert (Eta : set_temp (temp_lines s) s = s) by (destruct s; reflexivity).
  unfold step, handle, on_motion.
  destruct inaxes as [v |]; [| exact Eta].
  cbn [bind get]; destruct (data s); [| exact Eta].
  rewrite Hup.
  transitivity (set_temp (temp_lines s) s); [| exact Eta].
  apply set_temp_change with (t' := const_plane None).
  apply update_temp_crosshairs_keeps_rest.
Qed.

Lemma bind_modify {A} (g : viewer -> viewer) (k : M A) (s : viewer) :
  (modify g ;;; k) s = k (g s).
Proof. reflexivity. Qed.

Lemma try_except_keeps_fst {A B} (f : viewer -> B) (m h : M A) (e : exn) (s : viewer) :
  keeps f h -> f (fst (try_except m e h s)) = f (fst (m s)).
Proof.
  intros H; unfold try_except; destruct (m s) as [s' [a | e']]; simpl; auto.
  destruct (exn_eqb e e'); simpl; auto.
Qed.

(** The text-entry path clamps: a committed int [v] is stored as
    [max(0, min(v, dim - 1))] of the entry's own axis. *)
Lemma entry_commit_clamps (p : plane) (text : string) (v : Z) (s : viewer) (d : volume)
  (Hd : data s = Some d) (Hparse : parse_int text = Some v) :
  lookup (slice_controls (step s (EvEntry p text))) p
  = Z.max 0 (Z.min v (shape_at d (dim_index p) - 1)).
Proof.
  unfold step, handle; rewrite bind_modify; unfold on_entry_change.
  rewrite (try_except_keeps_fst (fun s => lookup (slice_controls s) p)) by keeps_tac.
  cbn [bind get].
  replace (lookup (slice_entries (set_entry p text s)) p) with text by (destruct p; reflexivity).
  rewrite Hparse; cbn [data set_entry]; rewrite Hd.
  rewrite !bind_modify, (redraw_keeps_controls p).
  destruct p; reflexivity.
Qed.

Lemma np_clip_int (a hi : Z) :
  0 <= a <= hi -> py_int_of_float (np_clip (inject_Z a) 0 (inject_Z hi)) = a.
Proof.
  intros [H0 H1]; unfold np_clip.
  assert (E1 : Qmax (inject_Z a) 0 = inject_Z a).
  { unfold Qmax, GenericMinMax.gmax, Qcompare, inject_Z; simpl; rewrite Z.mul_1_r.
    destruct (Z.compare_spec a 0); [reflexivity | lia | reflexivity]. }
  assert (E2 : Qmin (inject_Z a) (inject_Z hi) = inject_Z a).
  { unfold Qmin, GenericMinMax.gmin, Qcompare, inject_Z; simpl; rewrite !Z.mul_1_r.
    destruct (Z.compare_spec a hi); [reflexivity | reflexivity | lia]. }
  rewrite E1, E2; unfold py_int_of_float.
  assert (E3 : Qle_bool 0 (inject_Z a) = true)
    by (apply Qle_bool_iff; change 0%Q with (inject_Z 0); rewrite <- Zle_Qle; lia).
  rewrite E3; apply Qfloor_Z.
Qed.

(** On the axial view the crosshair and the click mapping are inverse: a
    click at the crosshair pixel gives back x and y for every in-range cursor. *)
Lemma axial_crosshair_click_inverse (s : viewer) (d : volume) (Hd : data s = Some d)
  (Hx : 0 <= lookup (slice_controls s) Sagittal < shape_at d 0)
  (Hy : 0 <= lookup (slice_controls s) Coronal < shape_at d 1) :
  let c := crosshair_pos d Axial (lookup (slice_controls s) Sagittal)
             (lookup (slice_controls s) Coronal) (lookup (slice_controls s) Axial) in
  let s' := fst (update_cursor_position (Some Axial) (inject_Z (fst c)) (inject_Z (snd c)) s) in
  lookup (slice_controls s') Sagittal = lookup (slice_controls s) Sagittal /\
  lookup (slice_controls s') Coronal = lookup (slice_controls s) Coronal.
Proof.
  cbv zeta; cbn [crosshair_pos fst snd].
  unfold update_cursor_position; cbn [bind get]; rewrite Hd.
  rewrite !redraw_after_controls.
  rewrite (np_clip_int (lookup (slice_controls s) Sagittal)) by lia.
  rewrite (np_clip_int (shape_at d 1 - lookup (slice_controls s) Coronal - 1)) by lia.
  cbn [bind modify fst lookup store set_control set_entry slice_controls].
  simpl; split; [reflexivity | lia].
Qed.

(** C1: the crosshair / click inverse law fails on the sagittal view of a
    (10,20,30) volume.  After loading, the cursor is (4, 9, 14) and the
    sagittal crosshair sits at pixel (20 - 9 - 1, 14) = (10, 14); a click
    there clips the x pixel to the first dimension (9) and stores
    y = 20 - 9 - 1 = 10 instead of 9. *)
Theorem sagittal_crosshair_click_moves_y :
  lookup (slice_controls loaded_10_20_30) Sagittal = 4 /\
  lookup (slice_controls loaded_10_20_30) Coronal = 9 /\
  lookup (slice_controls loaded_10_20_30) Axial = 14 /\
  lookup (crosshair_lines loaded_10_20_30) Sagittal = (10%Q, 14%Q) /\
  lookup (slice_controls (step loaded_10_20_30 (EvPress (Some Sagittal) 10 14))) Coronal = 10.
Proof. vm_compute; repeat split; reflexivity. Qed.

(** C2: a click on the coronal view of a (10,20,5) volume at pixel (0,19)
    stores z = 19, outside [0, 4]; the clamped value would be 4.  The y
    pixel is clipped to the second dimension (20), not to the depth (5). *)
Theorem coronal_click_stores_unclamped_z :
  lookup (slice_controls coronal_click_10_20_5) Axial = 19 /\
  Z.max 0 (Z.min 19 (shape_at volume_10_20_5 2 - 1)) = 4.
Proof. vm_compute; split; reflexivity. Qed.

(** C9: the same click leaves a reachable state whose axial index 19 is out
    of bounds for depth 5: extracting [data[:, :, 19]] raises IndexError,
    both in the click handler and in every later redraw. *)
Theorem coronal_click_slices_out_of_bounds :
  ~ slice_indices_in_bounds coronal_click_10_20_5 /\
  snd (handle (EvPress (Some Coronal) 0 19) loaded_10_20_5) = Raise IndexError /\
  snd (update_image_data coronal_click_10_20_5) = Raise IndexError.
Proof.
  split; [| vm_compute; split; reflexivity].
  unfold slice_indices_in_bounds; vm_compute; intros [H _]; discriminate.
Qed.

(** C8: leaving a view does not hide the hover overlay: after a hover on
    the axial view and a leave event, the axial overlay is still visible. *)
Theorem leave_keeps_hover_overlay_visible :
  ~ (forall s, hover_overlay_hidden (step s EvLeave)).
Proof.
  intros H; destruct (H hovered_10_20_30 Axial) as [H1 _].
  vm_compute in H1; discriminate.
Qed.

Lemma axial_click_scenario_witness :
  let s' := step loaded_10_20_30 (EvPress (Some Axial) 3 5) in
  lookup (slice_controls s') Sagittal = 3 /\
  lookup (slice_controls s') Coronal = 14 /\
  lookup (slice_controls s') Axial = lookup (slice_controls loaded_10_20_30) Axial.
Proof.
  apply (axial_click_scenario loaded_10_20_30 volume_10_20_30);
    vm_compute; reflexivity.
Defined.

Lemma display_params_formula_witness :
  (exists data_min data_max,
    list_min (voxels volume_0_200) = Some data_min /\
    list_max (voxels volume_0_200) = Some data_max /\
    get_slice_display_params bright_50 =
      (bright_50, Ret ((data_min + brightness_var bright_50 / 100 * (data_max - data_min))%Q,
                       (data_max * ((contrast_var bright_50 + 100) / 100))%Q))) /\
  brightness_var bright_50 = 50%Q /\ contrast_var bright_50 = 0%Q /\
  list_min (voxels volume_0_200) = Some 0%Q /\ list_max (voxels volume_0_200) = Some 200%Q /\
  match snd (get_slice_display_params bright_50) with
  | Ret (vmin, vmax) => (vmin == 100)%Q /\ (vmax == 200)%Q
  | Raise _ => False
  end.
Proof.
  split.
  - apply (display_params_formula bright_50 volume_0_200);
      [vm_compute; reflexivity | vm_compute; repeat split; reflexivity].
  - vm_compute; repeat split; reflexivity.
Defined.

Lemma neutral_display_params_witness :
  exists data_min data_max vmin vmax,
    list_min (voxels volume_10_20_30) = Some data_min /\
    list_max (voxels volume_10_20_30) = Some data_max /\
    get_slice_display_params loaded_10_20_30 = (loaded_10_20_30, Ret (vmin, vmax)) /\
    (vmin == data_min)%Q /\ (vmax == data_max)%Q.
Proof.
  apply (neutral_display_params loaded_10_20_30 volume_10_20_30);
    vm_compute; repeat split; reflexivity.
Defined.

Lemma entry_parse_failure_reverts_witness :
  parse_int "abc" = None /\
  lookup (slice_controls entry_7) Coronal = 7 /\
  handle (EvEntry Coronal "abc") entry_7 = (set_entry Coronal "7" entry_7, Ret tt).
Proof.
  split; [reflexivity |]; split; [vm_compute; reflexivity |].
  rewrite (entry_parse_failure_reverts Coronal "abc" entry_7 eq_refl).
  assert (E : py_str (lookup (slice_controls entry_7) Coronal) = "7"%string)
    by (vm_compute; reflexivity).
  rewrite E; reflexivity.
Defined.

Lemma hover_only_touches_overlay_witness :
  mouse_pressed hovered_10_20_30 = false /\
  set_temp (temp_lines hovered_10_20_30)
    (step hovered_10_20_30 (EvMotion (Some Sagittal) 1 2)) = hovered_10_20_30 /\
  mouse_pressed hovered_pressed_10_20_30 = true /\
  lookup (temp_lines hovered_pressed_10_20_30) Axial = Some (Line true 3, Line true 4) /\
  temp_lines (step hovered_pressed_10_20_30 EvLeave) = temp_lines hovered_pressed_10_20_30.
Proof.
  assert (Hup : mouse_pressed hovered_10_20_30 = false) by (vm_compute; reflexivity).
  split; [exact Hup |].
  split; [exact (proj1 (hover_only_touches_overlay hovered_10_20_30 (Some Sagittal) 1 2) Hup) |].
  split; [vm_compute; reflexivity | split; [vm_compute; reflexivity |]].
  exact (proj2 (hover_only_touches_overlay hovered_pressed_10_20_30 None 0 0)).
Defined.

(** ** Further properties of the code *)

Lemma clip_trunc_range (q : Q) (n : Z) :
  1 <= n -> 0 <= py_int_of_float (np_clip q 0 (inject_Z (n - 1))) <= n - 1.
Proof.
  intros Hn; set (c := np_clip q 0 (inject_Z (n - 1))).
  assert (H0 : (0 <= c)%Q).
  { unfold c, np_clip; apply Q.min_glb; [apply Q.le_max_r |].
    change 0%Q with (inject_Z 0); rewrite <- Zle_Qle; lia. }
  assert (H1 : (c <= inject_Z (n - 1))%Q) by apply Q.le_min_r.
  unfold py_int_of_float; rewrite (proj2 (Qle_bool_iff 0 c) H0).
  split.
  - change 0 with (Qfloor 0); apply Qfloor_resp_le; exact H0.
  - rewrite <- (Qfloor_Z (n - 1)); apply Qfloor_resp_le; exact H1.
Qed.

Lemma scale_trunc_range (lo hi : Z) (q : Q) :
  lo <= hi -> lo <= py_int_of_float (scale_value (inject_Z lo) (inject_Z hi) q) <= hi.
Proof.
  intros Hle; set (c := scale_value (inject_Z lo) (inject_Z hi) q).
  assert (Hhi : (c <= inject_Z hi)%Q) by apply Q.le_min_r.
  assert (Hlo : (inject_Z lo <= c)%Q).
  { unfold c, scale_value; apply Q.min_glb; [apply Q.le_max_r | rewrite <- Zle_Qle; lia]. }
  unfold py_int_of_float; destruct (Qle_bool 0 c) eqn:E.
  - split.
    + rewrite <- (Qfloor_Z lo); apply Qfloor_resp_le; exact Hlo.
    + rewrite <- (Qfloor_Z hi); apply Qfloor_resp_le; exact Hhi.
  - split.
    + assert (Qfloor (- c) <= - lo).
      { rewrite <- (Qfloor_Z (- lo)), inject_Z_opp; apply Qfloor_resp_le, Qopp_le_compat; exact Hlo. }
      lia.
    + assert (- hi <= Qfloor (- c)).
      { rewrite <- (Qfloor_Z (- hi)), inject_Z_opp; apply Qfloor_resp_le, Qopp_le_compat; exact Hhi. }
      lia.
Qed.

Lemma keeps_cursor_all {A} (m : M A) : keeps cursor_view m -> keeps slice_controls m.
Proof. intros H s; specialize (H s); unfold cursor_view in H; injection H as _ H _; exact H. Qed.

Lemma keeps_cursor_data_ranges {A} (m : M A) : keeps cursor_view m -> keeps data_ranges m.
Proof.
  intros H s; specialize (H s); unfold cursor_view in H; injection H as H1 _ H3.
  unfold data_ranges; now rewrite H1, H3.
Qed.

Lemma redraw_keeps_cursor : keeps cursor_view (update_image_data ;;; update_crosshairs).
Proof.
  apply keeps_bind; intros; [apply update_image_data_keeps_cursor | apply update_crosshairs_keeps_cursor].
Qed.

Lemma update_cursor_position_keeps_data_ranges inaxes xd yd :
  keeps data_ranges (update_cursor_position inaxes xd yd).
Proof.
  unfold update_cursor_position; keeps_tac; apply keeps_cursor_data_ranges;
    first [apply update_image_data_keeps_cursor | apply update_crosshairs_keeps_cursor].
Qed.

Lemma ordered_dims (d : volume) :
  ordered_volume d -> 1 <= shape_at d 0 <= shape_at d 1 /\ shape_at d 1 <= shape_at d 2.
Proof. unfold ordered_volume, shape_at; destruct (shape d) as [[nx ny] nz]; lia. Qed.

(** On an ordered volume every click or drag on any view keeps the cursor in
    range: x, y and the sagittal y are bounded by Nx <= Ny, z by Ny <= Nz. *)
Lemma click_in_range (s : viewer) (d : volume) (inaxes : option plane)
  (xdata ydata : Q)
  (Hd : data s = Some d) (Ho : ordered_volume d) (Hc : cursor_in_range d (slice_controls s)) :
  cursor_in_range d (slice_controls (fst (update_cursor_position inaxes xdata ydata s))).
Proof.
  destruct inaxes as [v |]; [| exact Hc].
  unfold update_cursor_position; cbn [bind get]; rewrite Hd.
  rewrite (keeps_seq_fst slice_controls _ _ _ (keeps_cursor_all _ redraw_keeps_cursor)).
  destruct (ordered_dims d Ho) as [[H0 H01] H12].
  pose proof (clip_trunc_range xdata (shape_at d 0) ltac:(lia)) as Cx.
  pose proof (clip_trunc_range ydata (shape_at d 1) ltac:(lia)) as Cy.
  revert Cx Cy; generalize (py_int_of_float (np_clip xdata 0 (inject_Z (shape_at d 0 - 1)))),
    (py_int_of_float (np_clip ydata 0 (inject_Z (shape_at d 1 - 1)))); intros a b Ca Cb.
  intros p; specialize (Hc p).
  destruct v, p; cbn [dim_index lookup] in *; cbn; lia.
Qed.

Lemma update_image_data_keeps_entries : keeps slice_entries update_image_data.
Proof.
  unfold update_image_data, get_slice_display_params, extract_slices, np_min, np_max, np_index.
  keeps_tac.
Qed.

Lemma update_crosshairs_keeps_entries : keeps slice_entries update_crosshairs.
Proof. unfold update_crosshairs; keeps_tac. Qed.

Lemma redraw_keeps_entries : keeps slice_entries (update_image_data ;;; update_crosshairs).
Proof.
  apply keeps_bind; intros;
    [apply update_image_data_keeps_entries | apply update_crosshairs_keeps_entries].
Qed.

Lemma try_except_cases {A} (m h : M A) (e : exn) (s : viewer) :
  fst (try_except m e h s) = fst (m s) \/ fst (try_except m e h s) = fst (h (fst (m s))).
Proof.
  unfold try_except; destruct (m s) as [s' [a | e']]; simpl; auto.
  destruct (exn_eqb e e'); simpl; auto.
Qed.

(** Effect of committing a parsed int on a loaded volume. *)
Lemma entry_commit_effect (p : plane) (text : string) (v : Z) (s : viewer) (d : volume)
  (Hd : data s = Some d) (Hparse : parse_int text = Some v) :
  let value := Z.max 0 (Z.min v (shape_at d (dim_index p) - 1)) in
  slice_controls (step s (EvEntry p text)) = store (slice_controls s) p value /\
  lookup (slice_entries (step s (EvEntry p text))) p = py_str value /\
  data_ranges (step s (EvEntry p text)) = data_ranges s.
Proof.
  intros value.
  unfold step, handle; rewrite bind_modify; unfold on_entry_change.
  match goal with |- context [try_except ?m ?e ?h ?st] =>
    set (body := m); set (hnd := h); set (s1 := st) end.
  set (P := fun t : viewer =>
    slice_controls t = store (slice_controls s) p value /\
    lookup (slice_entries t) p = py_str value /\ data_ranges t = data_ranges s).
  assert (Hm : P (fst (body s1))).
  { unfold body; cbn [bind get].
    replace (lookup (slice_entries s1) p) with text by (destruct p; reflexivity).
    rewrite Hparse; cbn [data s1 set_entry]; rewrite Hd; fold value.
    rewrite !bind_modify.
    set (s2 := set_entry p (py_str value) (set_control p value s1)).
    pose proof (keeps_cursor_all _ redraw_keeps_cursor s2) as E1.
    pose proof (redraw_keeps_entries s2) as E2.
    pose proof (keeps_cursor_data_ranges _ redraw_keeps_cursor s2) as E3.
    unfold P; rewrite E1, E2, E3; unfold s2, s1.
    destruct p; repeat split; reflexivity. }
  assert (Hh : forall t, P t -> P (fst (hnd t))).
  { intros t (Ht1 & Ht2 & Ht3); unfold hnd; cbn [bind get modify fst].
    unfold P; rewrite Ht1; cbn [slice_controls set_entry].
    replace (lookup (store (slice_controls s) p value) p) with value by (destruct p; reflexivity).
    repeat split; [rewrite <- Ht1; reflexivity | destruct p; reflexivity | exact Ht3]. }
  assert (HP : P (fst (try_except body ValueError hnd s1)))
    by (destruct (try_except_cases body hnd ValueError s1) as [E | E]; rewrite E; auto).
  exact HP.
Qed.

(** Committing text that does not parse touches the entry only. *)
Lemma entry_revert_state (p : plane) (text : string) (s : viewer)
  (Hparse : parse_int text = None) :
  step s (EvEntry p text) = set_entry p (py_str (lookup (slice_controls s) p)) s.
Proof.
  unfold step, handle, on_entry_change, try_except.
  destruct p; cbn -[parse_int py_str]; rewrite Hparse; reflexivity.
Qed.

(** Effect of loading a volume on the cursor and the slider ranges. *)
Lemma load_nifti_effect (d : volume) (s : viewer) :
  data (step s (EvLoad (Some d))) = Some d /\
  forall p,
    lookup (slice_controls (step s (EvLoad (Some d)))) p = (shape_at d (dim_index p) - 1) / 2 /\
    lookup (slider_range (step s (EvLoad (Some d)))) p = (0, shape_at d (dim_index p) - 1).
Proof.
  unfold step, handle, load_nifti; rewrite try_any_ret_fst.
  cbn [bind modify].
  assert (E := keeps_seq_fst cursor_view initialize_slice_positions initialize_plots
                 (set_data (Some d) s) initialize_plots_keeps_cursor).
  unfold bind in E |- *.
  revert E; generalize (fst (let (s', r) := initialize_slice_positions (set_data (Some d) s) in
             match r with Ret _ => initialize_plots s' | Raise e => (s', Raise e) end)).
  intros s' E; unfold cursor_view in E.
  unfold initialize_slice_positions in E; cbn in E.
  injection E as -> -> ->.
  split; [reflexivity | intros p; destruct p; cbn; auto].
Qed.

Lemma viewer_ok_cursor_view (s s' : viewer) :
  cursor_view s' = cursor_view s -> viewer_ok s -> viewer_ok s'.
Proof.
  unfold cursor_view, viewer_ok; intros E; injection E as E1 E2 E3.
  rewrite E1, E2, E3; exact (fun H => H).
Qed.

Lemma lookup_store {A} (c : by_plane A) (p q : plane) (x : A) :
  lookup (store c p x) q = if plane_eqb q p then x else lookup c q.
Proof. destruct c, p, q; reflexivity. Qed.

Lemma on_slider_change_keeps_cursor v p : keeps cursor_view (on_slider_change v p).
Proof.
  unfold on_slider_change; keeps_tac;
    first [apply update_image_data_keeps_cursor | apply update_crosshairs_keeps_cursor].
Qed.

Lemma update_temp_crosshairs_keeps_cursor inaxes xd yd :
  keeps cursor_view (update_temp_crosshairs inaxes xd yd).
Proof. unfold update_temp_crosshairs; keeps_tac. Qed.

Lemma on_axes_leave_keeps_cursor : keeps cursor_view on_axes_leave.
Proof.
  unfold on_axes_leave; keeps_tac;
    first [apply update_image_data_keeps_cursor | apply update_crosshairs_keeps_cursor].
Qed.

Lemma entry_keeps_data_ranges p text : keeps data_ranges (handle (EvEntry p text)).
Proof.
  unfold handle, on_entry_change; keeps_tac; apply keeps_cursor_data_ranges;
    first [apply update_image_data_keeps_cursor | apply update_crosshairs_keeps_cursor].
Qed.

Lemma update_cursor_position_keeps_ok inaxes xd yd s :
  viewer_ok s -> viewer_ok (fst (update_cursor_position inaxes xd yd s)).
Proof.
  pose proof (update_cursor_position_keeps_data_ranges inaxes xd yd s) as E.
  unfold data_ranges in E; injection E as E1 E2.
  unfold viewer_ok; rewrite E1, E2; destruct (data s) as [d |] eqn:Hd; [| auto].
  intros (Ho & Hc & Hr); split; [exact Ho | split; [| exact Hr]].
  apply (click_in_range s d); auto.
Qed.

Lemma middle_in_range (n : Z) : 1 <= n -> 0 <= (n - 1) / 2 < n.
Proof.
  intros Hn; split; [apply Z.div_pos; lia | apply Z.div_lt_upper_bound; lia].
Qed.

Lemma step_keeps_ok (s : viewer) (ev : event) :
  viewer_ok s -> loads_ordered ev -> viewer_ok (step s ev).
Proof.
  intros Hok Hev.
  destruct ev as [[d |] | p value | p text | value | value | inaxes xd yd | inaxes xd yd
                 | | inaxes | ].
  - destruct (load_nifti_effect d s) as [Hd Hp].
    unfold viewer_ok; rewrite Hd; cbn in Hev.
    destruct (ordered_dims d Hev) as [[H0 H01] H12].
    split; [exact Hev | split; [intros p | intros p; apply Hp]].
    rewrite (proj1 (Hp p)); apply middle_in_range; destruct p; cbn; lia.
  - unfold step, handle, load_nifti; rewrite try_any_ret_fst; exact Hok.
  - unfold step, handle; cbn [bind get].
    destruct (lookup (slider_range s) p) as [lo hi] eqn:Er.
    rewrite bind_modify.
    eapply viewer_ok_cursor_view; [apply on_slider_change_keeps_cursor |].
    revert Hok; unfold viewer_ok; cbn [data set_control slider_range slice_controls].
    destruct (data s) as [d |]; [| auto].
    intros (Ho & Hc & Hr); split; [exact Ho | split; [| exact Hr]].
    rewrite Hr in Er; injection Er as <- <-.
    destruct (ordered_dims d Ho) as [[H0 H01] H12].
    intros q; specialize (Hc q).
    assert (Hn : 1 <= shape_at d (dim_index p)) by (destruct p; cbn; lia).
    pose proof (scale_trunc_range 0 (shape_at d (dim_index p) - 1) value ltac:(lia)).
    rewrite lookup_store; destruct (plane_eqb q p) eqn:Eq; [| exact Hc].
    destruct p, q; try discriminate; lia.
  - destruct (data s) as [d |] eqn:Hd.
    + destruct (parse_int text) as [v |] eqn:Hp.
      * destruct (entry_commit_effect p text v s d Hd Hp) as (Hc' & _ & Hdr).
        unfold data_ranges in Hdr; injection Hdr as E1 E2.
        revert Hok; unfold viewer_ok; rewrite E1, E2, Hc', Hd.
        intros (Ho & Hc & Hr); split; [exact Ho | split; [| exact Hr]].
        destruct (ordered_dims d Ho) as [[H0 H01] H12].
        intros q; specialize (Hc q); rewrite lookup_store.
        destruct (plane_eqb q p) eqn:Eq; [| exact Hc].
        destruct p, q; try discriminate; cbn [dim_index] in *; lia.
      * rewrite (entry_revert_state p text s Hp).
        eapply viewer_ok_cursor_view; [reflexivity | exact Hok].
    + pose proof (entry_keeps_data_ranges p text s) as E.
      unfold data_ranges in E; injection E as E1 E2.
      unfold viewer_ok, step, handle; rewrite E1, Hd; exact I.
  - eapply viewer_ok_cursor_view; [| exact Hok].
    unfold step, handle; rewrite bind_modify; exact (redraw_keeps_cursor _).
  - eapply viewer_ok_cursor_view; [| exact Hok].
    unfold step, handle; rewrite bind_modify; exact (redraw_keeps_cursor _).
  - unfold step, handle, on_click; destruct inaxes as [v |]; [| exact Hok].
    cbn [bind get]; destruct (data s) as [d |] eqn:Hd; [| exact Hok].
    rewrite bind_modify; apply update_cursor_position_keeps_ok.
    eapply viewer_ok_cursor_view; [reflexivity | exact Hok].
  - unfold step, handle, on_motion; destruct inaxes as [v |]; [| exact Hok].
    cbn [bind get]; destruct (data s) as [d |] eqn:Hd; [| exact Hok].
    destruct (mouse_pressed s).
    + apply update_cursor_position_keeps_ok; exact Hok.
    + eapply viewer_ok_cursor_view; [apply update_temp_crosshairs_keeps_cursor | exact Hok].
  - eapply viewer_ok_cursor_view; [reflexivity | exact Hok].
  - eapply viewer_ok_cursor_view; [reflexivity | exact Hok].
  - eapply viewer_ok_cursor_view; [apply on_axes_leave_keeps_cursor | exact Hok].
Qed.

Lemma run_keeps_ok (evs : list event) (s : viewer) :
  Forall loads_ordered evs -> viewer_ok s -> viewer_ok (run evs s).
Proof.
  unfold run; intros H; revert s; induction H as [| ev evs Hev _ IH]; intros s Hok; cbn.
  - exact Hok.
  - apply IH, step_keeps_ok; assumption.
Qed.

(** Starting from the blank window, as long as every volume loaded has
    1 <= Nx <= Ny <= Nz, the cursor stays in [0, dim) on each axis, every
    slice Scale spans [0, dim - 1], and so every slice extraction is in
    bounds, whatever clicks, drags, slider moves and entries come. *)
Theorem ordered_volumes_keep_cursor_in_bounds (evs : list event)
  (Hevs : Forall loads_ordered evs) :
  viewer_ok (run evs initial_viewer) /\ slice_indices_in_bounds (run evs initial_viewer).
Proof.
  pose proof (run_keeps_ok evs initial_viewer Hevs I) as Hok; split; [exact Hok |].
  revert Hok; unfold viewer_ok, slice_indices_in_bounds.
  destruct (data (run evs initial_viewer)) as [d |]; [| auto].
  intros (_ & Hc & _).
  pose proof (Hc Axial); pose proof (Hc Sagittal); pose proof (Hc Coronal).
  cbn [dim_index] in *; lia.
Qed.

Lemma ordered_volumes_keep_cursor_in_bounds_witness :
  let evs := [EvLoad (Some (ramp_volume 2 3 4)); EvPress (Some Coronal) 1 3;
              EvMotion (Some Sagittal) 7 (-2); EvRelease; EvSlider Axial 9;
              EvEntry Sagittal "8"%string; EvLoad (Some (ramp_volume 3 3 3));
              EvEntry Axial "x"%string] in
  Forall loads_ordered evs /\
  (viewer_ok (run evs initial_viewer) /\ slice_indices_in_bounds (run evs initial_viewer)).
Proof.
  intros evs; split.
  - repeat constructor; cbv [loads_ordered ordered_volume ramp_volume shape]; lia.
  - apply ordered_volumes_keep_cursor_in_bounds.
    repeat constructor; cbv [loads_ordered ordered_volume ramp_volume shape]; lia.
Defined.

Lemma digit_char_ok (m : Z) :
  0 <= m < 10 -> is_digit (digit_char m) = true /\ digit_value (digit_char m) = m.
Proof.
  intros Hm; unfold is_digit, digit_value, digit_char.
  rewrite nat_ascii_embedding by lia; split.
  - apply andb_true_iff; split; apply Nat.leb_le; lia.
  - rewrite Nat2Z.inj_add, Z2Nat.id by lia; lia.
Qed.

Lemma digit_not_space (c : ascii) : is_digit c = true -> is_py_space c = false.
Proof.
  unfold is_digit, is_py_space; generalize (nat_of_ascii c); intros n H.
  apply andb_true_iff in H as [H1 H2]; apply Nat.leb_le in H1, H2.
  apply orb_false_iff; split; apply andb_false_iff; right; apply Nat.leb_gt; lia.
Qed.

Lemma digit_not_sign (c : ascii) :
  is_digit c = true -> Ascii.eqb c "-"%char = false /\ Ascii.eqb c "+"%char = false.
Proof.
  intros H; split.
  - destruct (Ascii.eqb_spec c "-"%char) as [-> |]; [discriminate | reflexivity].
  - destruct (Ascii.eqb_spec c "+"%char) as [-> |]; [discriminate | reflexivity].
Qed.

Lemma parse_digits_digit (m : Z) (r : string) (a : Z) :
  0 <= m < 10 ->
  parse_digits (String (digit_char m) r) a false = parse_digits r (a * 10 + m) false.
Proof.
  intros Hm; destruct (digit_char_ok m Hm) as [H1 H2].
  cbn [parse_digits]; rewrite H1, H2; reflexivity.
Qed.

Lemma digits_rev_parse (f : nat) :
  forall n acc, 0 <= n < 10 ^ Z.of_nat (S f) ->
  exists k, 0 <= k /\
    forall a, parse_digits (digits_rev (S f) n acc) a false = parse_digits acc (a * 10 ^ k + n) false.
Proof.
  induction f as [| f IH]; intros n acc Hn; cbn [digits_rev].
  - cbn in Hn; replace (n <? 10) with true by lia.
    exists 1; split; [lia | intros a].
    rewrite Z.mod_small by lia; apply parse_digits_digit; lia.
  - destruct (n <? 10) eqn:E.
    + apply Z.ltb_lt in E; exists 1; split; [lia | intros a].
      rewrite Z.mod_small by lia; apply parse_digits_digit; lia.
    + apply Z.ltb_ge in E.
      assert (Hn' : 0 <= n / 10 < 10 ^ Z.of_nat (S f)).
      { split; [apply Z.div_pos; lia |].
        apply Z.div_lt_upper_bound; [lia |].
        rewrite <- Z.pow_succ_r, <- Nat2Z.inj_succ by lia; lia. }
      destruct (IH (n / 10) (String (digit_char (n mod 10)) acc) Hn') as (k & Hk & Hp).
      exists (Z.succ k); split; [lia | intros a].
      rewrite Hp, parse_digits_digit by (apply Z.mod_pos_bound; lia).
      f_equal; rewrite Z.pow_succ_r by lia.
      transitivity (a * (10 * 10 ^ k) + (10 * (n / 10) + n mod 10)); [ring |].
      f_equal; symmetry; apply Z.div_mod; lia.
Qed.

Lemma digits_rev_all_digits (f : nat) :
  forall n acc, all_digits acc = true -> all_digits (digits_rev f n acc) = true.
Proof.
  induction f as [| f IH]; intros n acc H; cbn [digits_rev]; [exact H |].
  assert (Hc : all_digits (String (digit_char (n mod 10)) acc) = true).
  { cbn [all_digits]; rewrite H, (proj1 (digit_char_ok (n mod 10) ltac:(apply Z.mod_pos_bound; lia))).
    reflexivity. }
  destruct (n <? 10); [exact Hc | apply IH, Hc].
Qed.

Lemma digits_rev_nonempty (f : nat) :
  forall n acc, acc <> EmptyString -> digits_rev f n acc <> EmptyString.
Proof.
  induction f as [| f IH]; intros n acc H; cbn [digits_rev]; [exact H |].
  destruct (n <? 10); [discriminate | apply IH; discriminate].
Qed.

Lemma rev_string_rev_string (s acc b : string) :
  rev_string (rev_string s acc) b = rev_string acc (s ++ b).
Proof.
  revert acc b; induction s as [| c s IH]; intros acc b; cbn; [reflexivity |].
  rewrite IH; reflexivity.
Qed.

Lemma append_empty (s : string) : (s ++ EmptyString)%string = s.
Proof. induction s as [| c s IH]; cbn; [reflexivity | now rewrite IH]. Qed.

Lemma rev_string_digit_head (s acc : string) :
  all_digits s = true -> s <> EmptyString ->
  exists c r, rev_string s acc = String c r /\ is_digit c = true.
Proof.
  revert acc; induction s as [| c s IH]; intros acc Hs Hne; [congruence |].
  cbn in Hs |- *; apply andb_true_iff in Hs as [Hc Hs].
  destruct s as [| c' s'].
  - exists c, acc; split; [reflexivity | exact Hc].
  - apply IH; [exact Hs | discriminate].
Qed.

Lemma py_strip_id (s : string) :
  (exists c r, s = String c r /\ is_py_space c = false) ->
  (exists c r, rev_string s EmptyString = String c r /\ is_py_space c = false) ->
  py_strip s = s.
Proof.
  intros (c & r & -> & Hc) (c' & r' & Hr & Hc'); unfold py_strip.
  cbn [lstrip]; rewrite Hc, Hr; cbn [lstrip]; rewrite Hc', <- Hr.
  rewrite rev_string_rev_string; cbn [rev_string]; apply append_empty.
Qed.

Lemma size_nat_bound (p : positive) : Zpos p < 2 ^ Z.of_nat (Pos.size_nat p).
Proof.
  induction p as [p IH | p IH |]; cbn [Pos.size_nat]; try (cbn; lia);
    rewrite Nat2Z.inj_succ, Z.pow_succ_r by lia; lia.
Qed.

Lemma py_str_fuel (n : Z) :
  0 <= n -> 0 <= n < 10 ^ Z.of_nat (S (Pos.size_nat (Z.to_pos (n + 1)))).
Proof.
  intros Hn; split; [exact Hn |].
  pose proof (size_nat_bound (Z.to_pos (n + 1))) as H.
  rewrite Z2Pos.id in H by lia.
  set (k := Z.of_nat (Pos.size_nat (Z.to_pos (n + 1)))) in *.
  assert (2 ^ k <= 10 ^ k) by (apply Z.pow_le_mono_l; lia).
  assert (10 ^ k <= 10 ^ Z.of_nat (S (Pos.size_nat (Z.to_pos (n + 1)))))
    by (apply Z.pow_le_mono_r; lia).
  lia.
Qed.

(** [int(str(z)) == z]. *)
Lemma parse_int_py_str (z : Z) : parse_int (py_str z) = Some z.
Proof.
  unfold py_str.
  set (f := Pos.size_nat (Z.to_pos (Z.abs z + 1))).
  set (ds := digits_rev (S f) (Z.abs z) EmptyString).
  assert (Hall : all_digits ds = true) by (apply digits_rev_all_digits; reflexivity).
  assert (Hne : ds <> EmptyString).
  { unfold ds; cbn [digits_rev].
    destruct (Z.abs z <? 10); [discriminate | apply digits_rev_nonempty; discriminate]. }
  destruct (digits_rev_parse f (Z.abs z) EmptyString (py_str_fuel (Z.abs z) ltac:(lia)))
    as (k & _ & Hp); fold ds in Hp.
  assert (Hu : parse_unsigned ds = Some (Z.abs z)).
  { destruct ds as [| c r] eqn:E; [congruence |].
    cbn [all_digits] in Hall; apply andb_true_iff in Hall as [Hc _].
    unfold parse_unsigned; rewrite Hc, Hp; cbn; f_equal; lia. }
  destruct (rev_string_digit_head ds EmptyString Hall Hne) as (c1 & r1 & Hr1 & Hc1).
  destruct (z <? 0) eqn:Hz; unfold parse_int.
  - rewrite py_strip_id.
    + cbn [Ascii.eqb]; rewrite Hu; cbn; f_equal; lia.
    + exists "-"%char, ds; split; reflexivity.
    + destruct (rev_string_digit_head ds (String "-" EmptyString) Hall Hne) as (c2 & r2 & Hr2 & Hc2).
      exists c2, r2; split; [exact Hr2 | apply digit_not_space, Hc2].
  - rewrite py_strip_id.
    + destruct ds as [| c r] eqn:E; [congruence |].
      cbn [all_digits] in Hall; apply andb_true_iff in Hall as [Hc _].
      destruct (digit_not_sign c Hc) as [-> ->]; rewrite Hu; f_equal; lia.
    + destruct ds as [| c r]; [congruence |].
      cbn [all_digits] in Hall; apply andb_true_iff in Hall as [Hc _].
      exists c, r; split; [reflexivity | apply digit_not_space, Hc].
    + exists c1, r1; split; [exact Hr1 | apply digit_not_space, Hc1].
Qed.

Lemma update_temp_crosshairs_keeps_entries inaxes xd yd :
  keeps slice_entries (update_temp_crosshairs inaxes xd yd).
Proof. unfold update_temp_crosshairs; keeps_tac. Qed.

Lemma redraw_keeps_brightness : keeps brightness_var (update_image_data ;;; update_crosshairs).
Proof.
  unfold update_image_data, update_crosshairs, get_slice_display_params, extract_slices,
    np_min, np_max, np_index.
  keeps_tac.
Qed.

Lemma redraw_keeps_contrast : keeps contrast_var (update_image_data ;;; update_crosshairs).
Proof.
  unfold update_image_data, update_crosshairs, get_slice_display_params, extract_slices,
    np_min, np_max, np_index.
  keeps_tac.
Qed.

Lemma scale_value_range (lo hi q : Q) :
  (lo <= hi)%Q -> (lo <= scale_value lo hi q <= hi)%Q.
Proof.
  intros H; unfold scale_value; split; [| apply Q.le_min_r].
  apply Q.min_glb; [apply Q.le_max_r | exact H].
Qed.

(** Moving a slice Scale stores int(value) within the Scale's range and
    writes str of that same number into the plane's entry. *)
Theorem slider_syncs_entry (s : viewer) (p : plane) (value : Q) (lo hi : Z)
  (Hr : lookup (slider_range s) p = (lo, hi)) (Hle : lo <= hi) :
  lo <= lookup (slice_controls (step s (EvSlider p value))) p <= hi /\
  lookup (slice_entries (step s (EvSlider p value))) p =
    py_str (lookup (slice_controls (step s (EvSlider p value))) p).
Proof.
  unfold step, handle; cbn [bind get]; rewrite Hr, bind_modify.
  unfold on_slider_change; rewrite bind_modify.
  match goal with |- context [fst ((update_image_data ;;; update_crosshairs) ?t)] =>
    set (s1 := t) end.
  rewrite (keeps_cursor_all _ redraw_keeps_cursor s1), (redraw_keeps_entries s1).
  pose proof (scale_trunc_range lo hi value Hle).
  unfold s1; destruct p; cbn [set_entry set_control slice_controls slice_entries lookup store];
    auto.
Qed.

Lemma slider_syncs_entry_witness :
  lookup (slider_range loaded_10_20_30) Axial = (0, 29) /\ 0 <= 29 /\
  (0 <= lookup (slice_controls (step loaded_10_20_30 (EvSlider Axial (91 # 2)))) Axial <= 29 /\
   lookup (slice_entries (step loaded_10_20_30 (EvSlider Axial (91 # 2)))) Axial =
     py_str (lookup (slice_controls (step loaded_10_20_30 (EvSlider Axial (91 # 2)))) Axial)).
Proof.
  assert (Hr : lookup (slider_range loaded_10_20_30) Axial = (0, 29)) by (vm_compute; reflexivity).
  split; [exact Hr | split; [lia |]].
  apply (slider_syncs_entry loaded_10_20_30 Axial (91 # 2) 0 29 Hr); lia.
Defined.

(** Committing an int on a loaded volume clamps it into the axis, shows
    str of the stored number in the entry (so it reads back as that number),
    and leaves the other axes, the volume and the slider ranges alone. *)
Theorem entry_commit_syncs_clamped (s : viewer) (d : volume) (p : plane) (text : string) (v : Z)
  (Hd : data s = Some d) (Hparse : parse_int text = Some v) :
  lookup (slice_controls (step s (EvEntry p text))) p = Z.max 0 (Z.min v (shape_at d (dim_index p) - 1)) /\
  parse_int (lookup (slice_entries (step s (EvEntry p text))) p) =
    Some (lookup (slice_controls (step s (EvEntry p text))) p) /\
  (forall q, q <> p ->
     lookup (slice_controls (step s (EvEntry p text))) q = lookup (slice_controls s) q) /\
  data_ranges (step s (EvEntry p text)) = data_ranges s.
Proof.
  destruct (entry_commit_effect p text v s d Hd Hparse) as (H1 & H2 & H3).
  rewrite H1, H2, parse_int_py_str, !lookup_store.
  replace (plane_eqb p p) with true by (destruct p; reflexivity).
  split; [reflexivity | split; [reflexivity | split; [| exact H3]]].
  intros q Hq; destruct p, q; cbn; congruence.
Qed.

Lemma entry_commit_syncs_clamped_witness :
  data loaded_10_20_30 = Some volume_10_20_30 /\ parse_int " +4_2 "%string = Some 42 /\
  (lookup (slice_controls (step loaded_10_20_30 (EvEntry Sagittal " +4_2 "%string))) Sagittal =
     Z.max 0 (Z.min 42 (shape_at volume_10_20_30 (dim_index Sagittal) - 1)) /\
   parse_int (lookup (slice_entries (step loaded_10_20_30 (EvEntry Sagittal " +4_2 "%string))) Sagittal) =
     Some (lookup (slice_controls (step loaded_10_20_30 (EvEntry Sagittal " +4_2 "%string))) Sagittal) /\
   (forall q, q <> Sagittal ->
      lookup (slice_controls (step loaded_10_20_30 (EvEntry Sagittal " +4_2 "%string))) q =
      lookup (slice_controls loaded_10_20_30) q) /\
   data_ranges (step loaded_10_20_30 (EvEntry Sagittal " +4_2 "%string)) = data_ranges loaded_10_20_30).
Proof.
  assert (Hd : data loaded_10_20_30 = Some volume_10_20_30) by (vm_compute; reflexivity).
  assert (Hp : parse_int " +4_2 "%string = Some 42) by (vm_compute; reflexivity).
  split; [exact Hd | split; [exact Hp |]].
  exact (entry_commit_syncs_clamped loaded_10_20_30 volume_10_20_30 Sagittal _ 42 Hd Hp).
Defined.

(** Committing again what the entry shows after a commit changes no slice. *)
Theorem entry_recommit_is_stable (s : viewer) (d : volume) (p : plane) (text : string) (v : Z)
  (Hd : data s = Some d) (Hparse : parse_int text = Some v) :
  let s1 := step s (EvEntry p text) in
  slice_controls (step s1 (EvEntry p (lookup (slice_entries s1) p))) = slice_controls s1.
Proof.
  intros s1.
  destruct (entry_commit_effect p text v s d Hd Hparse) as (H1 & H2 & H3).
  fold s1 in H1, H2, H3.
  set (value := Z.max 0 (Z.min v (shape_at d (dim_index p) - 1))) in *.
  assert (Hd1 : data s1 = Some d) by (unfold data_ranges in H3; injection H3 as E _; congruence).
  assert (Hp1 : parse_int (lookup (slice_entries s1) p) = Some value)
    by (rewrite H2; apply parse_int_py_str).
  destruct (entry_commit_effect p _ value s1 d Hd1 Hp1) as (H1' & _ & _).
  rewrite H1', H1.
  replace (Z.max 0 (Z.min value (shape_at d (dim_index p) - 1))) with value by (unfold value; lia).
  destruct (slice_controls s), p; reflexivity.
Qed.

Lemma entry_recommit_is_stable_witness :
  data loaded_10_20_5 = Some volume_10_20_5 /\ parse_int "99"%string = Some 99 /\
  slice_controls (step (step loaded_10_20_5 (EvEntry Axial "99"%string))
    (EvEntry Axial (lookup (slice_entries (step loaded_10_20_5 (EvEntry Axial "99"%string))) Axial))) =
  slice_controls (step loaded_10_20_5 (EvEntry Axial "99"%string)).
Proof.
  assert (Hd : data loaded_10_20_5 = Some volume_10_20_5) by (vm_compute; reflexivity).
  assert (Hp : parse_int "99"%string = Some 99) by (vm_compute; reflexivity).
  split; [exact Hd | split; [exact Hp |]].
  exact (entry_recommit_is_stable loaded_10_20_5 volume_10_20_5 Axial _ 99 Hd Hp).
Defined.

(** With no volume loaded an int commit stores the number as typed, without
    clamping, and shows str of it; nothing else changes. *)
Theorem entry_commit_before_load (s : viewer) (p : plane) (text : string) (v : Z)
  (Hd : data s = None) (Hparse : parse_int text = Some v) :
  step s (EvEntry p text) = set_entry p (py_str v) (set_control p v s).
Proof.
  destruct s as [dt ctl ent rng br ct pr ov im ch tl]; cbn in Hd; subst dt.
  destruct ent.
  unfold step, handle, on_entry_change, try_except.
  destruct p; cbn -[parse_int py_str]; rewrite Hparse; reflexivity.
Qed.

Lemma entry_commit_before_load_witness :
  data initial_viewer = None /\ parse_int "-7"%string = Some (-7) /\
  step initial_viewer (EvEntry Coronal "-7"%string) =
    set_entry Coronal (py_str (-7)) (set_control Coronal (-7) initial_viewer).
Proof.
  assert (Hd : data initial_viewer = None) by reflexivity.
  assert (Hp : parse_int "-7"%string = Some (-7)) by (vm_compute; reflexivity).
  split; [exact Hd | split; [exact Hp |]].
  exact (entry_commit_before_load initial_viewer Coronal _ (-7) Hd Hp).
Defined.

(** Moving the brightness or contrast Scale stores a value in [-100, 100]
    and moves neither the cursor, the entries, the volume nor the slider
    ranges. *)
Theorem display_change_keeps_view (s : viewer) (q : Q) :
  (-100 <= brightness_var (step s (EvBrightness q)) <= 100)%Q /\
  cursor_view (step s (EvBrightness q)) = cursor_view s /\
  slice_entries (step s (EvBrightness q)) = slice_entries s /\
  (-100 <= contrast_var (step s (EvContrast q)) <= 100)%Q /\
  cursor_view (step s (EvContrast q)) = cursor_view s /\
  slice_entries (step s (EvContrast q)) = slice_entries s.
Proof.
  unfold step, handle, update_display; rewrite !bind_modify.
  rewrite (redraw_keeps_brightness (set_brightness _ s)), (redraw_keeps_contrast (set_contrast _ s)).
  rewrite (redraw_keeps_cursor (set_brightness _ s)), (redraw_keeps_cursor (set_contrast _ s)).
  rewrite (redraw_keeps_entries (set_brightness _ s)), (redraw_keeps_entries (set_contrast _ s)).
  cbn [brightness_var contrast_var set_brightness set_contrast].
  split; [apply scale_value_range; discriminate | split; [reflexivity | split; [reflexivity |]]].
  split; [apply scale_value_range; discriminate | split; reflexivity].
Qed.

(** After the button is released, dragging over any view no longer moves the
    cursor or rewrites an entry. *)
Theorem release_stops_drag (s : viewer) (inaxes : option plane) (xd yd : Q) :
  mouse_pressed (step s EvRelease) = false /\
  cursor_view (step (step s EvRelease) (EvMotion inaxes xd yd)) = cursor_view s /\
  slice_entries (step (step s EvRelease) (EvMotion inaxes xd yd)) = slice_entries s.
Proof.
  change (step s EvRelease) with (set_pressed false s).
  split; [reflexivity |].
  unfold step, handle, on_motion; destruct inaxes as [v |]; [| split; reflexivity].
  cbn [bind get]; destruct (data (set_pressed false s)); [| split; reflexivity].
  cbn [mouse_pressed set_pressed].
  rewrite (update_temp_crosshairs_keeps_cursor _ _ _ (set_pressed false s)),
    (update_temp_crosshairs_keeps_entries _ _ _ (set_pressed false s)).
  split; reflexivity.
Qed.

(** Once [initialize_plots] has created the hover lines of every view, a
    motion with no button held over a view of a loaded volume shows the
    dashed hover lines on that view only, at the pointer position, and hides
    them on the other two views. *)
Theorem hover_shows_only_hovered_view (s : viewer) (d : volume) (v : plane) (xd yd : Q)
  (Hd : data s = Some d) (Hup : mouse_pressed s = false)
  (Hl : forall p, lookup (temp_lines s) p <> None) :
  lookup (temp_lines (step s (EvMotion (Some v) xd yd))) v = Some (Line true xd, Line true yd) /\
  forall q, q <> v ->
    exists a b, lookup (temp_lines (step s (EvMotion (Some v) xd yd))) q = Some (a, b) /\
                line_visible a = false /\ line_visible b = false.
Proof.
  pose proof (Hl Axial) as La; pose proof (Hl Sagittal) as Ls; pose proof (Hl Coronal) as Lc.
  unfold step, handle, on_motion, update_temp_crosshairs; cbn [bind get]; rewrite Hd, Hup.
  cbn [bind get]; rewrite Hd.
  destruct s as [dt ctl ent rng br ct pr ov im ch [ta ts tc]].
  cbn in La, Ls, Lc.
  destruct ta as [[a1 a2] |]; [| congruence];
  destruct ts as [[b1 b2] |]; [| congruence];
  destruct tc as [[c1 c2] |]; [| congruence].
  split; [destruct v; reflexivity |].
  intros q Hq; destruct v, q; try congruence;
    (do 2 eexists; split; [reflexivity | split; reflexivity]).
Qed.

Lemma hover_shows_only_hovered_view_witness :
  data loaded_10_20_30 = Some volume_10_20_30 /\ mouse_pressed loaded_10_20_30 = false /\
  (forall p, lookup (temp_lines loaded_10_20_30) p <> None) /\
  (lookup (temp_lines (step loaded_10_20_30 (EvMotion (Some Coronal) 3 (7 # 2)))) Coronal =
     Some (Line true 3, Line true (7 # 2)) /\
   forall q, q <> Coronal ->
     exists a b, lookup (temp_lines (step loaded_10_20_30 (EvMotion (Some Coronal) 3 (7 # 2)))) q =
                   Some (a, b) /\ line_visible a = false /\ line_visible b = false).
Proof.
  assert (Hd : data loaded_10_20_30 = Some volume_10_20_30) by (vm_compute; reflexivity).
  assert (Hup : mouse_pressed loaded_10_20_30 = false) by (vm_compute; reflexivity).
  assert (Hl : forall p, lookup (temp_lines loaded_10_20_30) p <> None)
    by (intros p; destruct p; vm_compute; discriminate).
  split; [exact Hd | split; [exact Hup | split; [exact Hl |]]].
  exact (hover_shows_only_hovered_view loaded_10_20_30 volume_10_20_30 Coronal 3 (7 # 2) Hd Hup Hl).
Defined.

(** Before [initialize_plots] has created the hover lines (a volume is set
    but the plots were never built), a motion with no button held raises
    AttributeError on the first [None.set_visible] and changes nothing. *)
Theorem hover_without_lines_raises (s : viewer) (d : volume) (v : plane) (xd yd : Q)
  (Hd : data s = Some d) (Hup : mouse_pressed s = false)
  (Hn : lookup (temp_lines s) Axial = None) :
  handle (EvMotion (Some v) xd yd) s = (s, Raise AttributeError).
Proof.
  destruct s as [dt ctl ent rng br ct pr ov im ch [ta ts tc]]; cbn in Hd, Hup, Hn; subst.
  destruct v; reflexivity.
Qed.

Lemma hover_without_lines_raises_witness :
  data (step initial_viewer (EvLoad (Some (ramp_volume 0 4 4)))) = Some (ramp_volume 0 4 4) /\
  mouse_pressed (step initial_viewer (EvLoad (Some (ramp_volume 0 4 4)))) = false /\
  lookup (temp_lines (step initial_viewer (EvLoad (Some (ramp_volume 0 4 4))))) Axial = None /\
  handle (EvMotion (Some Sagittal) 2 1) (step initial_viewer (EvLoad (Some (ramp_volume 0 4 4)))) =
    (step initial_viewer (EvLoad (Some (ramp_volume 0 4 4))), Raise AttributeError).
Proof.
  assert (Hd : data (step initial_viewer (EvLoad (Some (ramp_volume 0 4 4)))) = Some (ramp_volume 0 4 4))
    by (vm_compute; reflexivity).
  assert (Hup : mouse_pressed (step initial_viewer (EvLoad (Some (ramp_volume 0 4 4)))) = false)
    by (vm_compute; reflexivity).
  assert (Hn : lookup (temp_lines (step initial_viewer (EvLoad (Some (ramp_volume 0 4 4))))) Axial = None)
    by (vm_compute; reflexivity).
  split; [exact Hd | split; [exact Hup | split; [exact Hn |]]].
  exact (hover_without_lines_raises _ _ Sagittal 2 1 Hd Hup Hn).
Defined.

Lemma axial_crosshair_click_inverse_witness :
  data loaded_10_20_30 = Some volume_10_20_30 /\
  (0 <= lookup (slice_controls loaded_10_20_30) Sagittal < shape_at volume_10_20_30 0) /\
  (0 <= lookup (slice_controls loaded_10_20_30) Coronal < shape_at volume_10_20_30 1) /\
  (let c := crosshair_pos volume_10_20_30 Axial (lookup (slice_controls loaded_10_20_30) Sagittal)
              (lookup (slice_controls loaded_10_20_30) Coronal) (lookup (slice_controls loaded_10_20_30) Axial) in
   let s' := fst (update_cursor_position (Some Axial) (inject_Z (fst c)) (inject_Z (snd c)) loaded_10_20_30) in
   lookup (slice_controls s') Sagittal = lookup (slice_controls loaded_10_20_30) Sagittal /\
   lookup (slice_controls s') Coronal = lookup (slice_controls loaded_10_20_30) Coronal).
Proof.
  assert (Hd : data loaded_10_20_30 = Some volume_10_20_30) by (vm_compute; reflexivity).
  assert (Hx : 0 <= lookup (slice_controls loaded_10_20_30) Sagittal < shape_at volume_10_20_30 0)
    by (split; [apply Z.leb_le | apply Z.ltb_lt]; vm_compute; reflexivity).
  assert (Hy : 0 <= lookup (slice_controls loaded_10_20_30) Coronal < shape_at volume_10_20_30 1)
    by (split; [apply Z.leb_le | apply Z.ltb_lt]; vm_compute; reflexivity).
  split; [exact Hd | split; [exact Hx | split; [exact Hy |]]].
  exact (axial_crosshair_click_inverse loaded_10_20_30 volume_10_20_30 Hd Hx Hy).
Defined.

Lemma np_index_in_range (n i : Z) : 0 <= i < n -> np_index n i = ret i.
Proof.
  intros Hi; unfold np_index.
  replace ((- n <=? i) && (i <? n)) with true
    by (symmetry; apply andb_true_iff; split; [apply Z.leb_le | apply Z.ltb_lt]; lia).
  replace (i <? 0) with false by (symmetry; apply Z.ltb_ge; lia).
  reflexivity.
Qed.

Lemma well_formed_dims (d : volume) :
  well_formed_volume d -> 1 <= shape_at d 0 /\ 1 <= shape_at d 1 /\ 1 <= shape_at d 2.
Proof. unfold well_formed_volume, shape_at; destruct (shape d) as [[nx ny] nz]; lia. Qed.

Lemma bind_get {A} (k : viewer -> M A) (s : viewer) : (x <- get ;; k x) s = k s s.
Proof. reflexivity. Qed.

Lemma bind_ret_eq {A B} (m : M A) (k : A -> M B) (s s' : viewer) (a : A) :
  m s = (s', Ret a) -> (x <- m ;; k x) s = k a s'.
Proof. intros H; unfold bind; rewrite H; reflexivity. Qed.

Lemma display_params_ret (t : viewer) (d : volume) (Hd : data t = Some d) (Hw : well_formed_volume d) :
  exists prm, get_slice_display_params t = (t, Ret prm).
Proof.
  destruct (voxels_head d Hw) as [tl Ht].
  unfold get_slice_display_params, np_min, np_max; cbn [bind get].
  rewrite Hd, Ht; cbn [list_min list_max].
  eexists; reflexivity.
Qed.

Lemma extract_slices_ret (t : viewer) (d : volume) (Hc : cursor_in_range d (slice_controls t)) :
  extract_slices d t t = (t, Ret (slice_controls t)).
Proof.
  pose proof (Hc Axial) as Ha; pose proof (Hc Sagittal) as Hs; pose proof (Hc Coronal) as Hco.
  cbn [dim_index] in Ha, Hs, Hco.
  unfold extract_slices; rewrite (np_index_in_range _ _ Ha), (np_index_in_range _ _ Hs), (np_index_in_range _ _ Hco).
  destruct (slice_controls t); reflexivity.
Qed.

Lemma initialize_plots_ret (t : viewer) (d : volume)
  (Hd : data t = Some d) (Hw : well_formed_volume d) (Hc : cursor_in_range d (slice_controls t)) :
  exists prm, initialize_plots t =
    (for_each planes (fun p =>
       modify (set_image p (Some (Image (lookup (slice_controls t) p) (fst prm) (snd prm)))) ;;;
       modify (set_crosshair p (0%Q, 0%Q)) ;;;
       modify (fun s' => set_temp (store (temp_lines s') p (Some (hidden_line, hidden_line))) s')) ;;;
     update_crosshairs) t.
Proof.
  destruct (display_params_ret t d Hd Hw) as [prm Hp].
  exists prm; unfold initialize_plots; rewrite bind_get; cbv beta; rewrite Hd.
  rewrite (bind_ret_eq _ _ _ _ _ Hp), (bind_ret_eq _ _ _ _ _ (extract_slices_ret t d Hc)).
  reflexivity.
Qed.

Lemma update_crosshairs_keeps_images : keeps image_plots update_crosshairs.
Proof. unfold update_crosshairs; keeps_tac. Qed.

Lemma initialize_plots_effect (t : viewer) (d : volume)
  (Hd : data t = Some d) (Hw : well_formed_volume d) (Hc : cursor_in_range d (slice_controls t)) :
  (forall p, lookup (temp_lines (fst (initialize_plots t))) p = Some (hidden_line, hidden_line)) /\
  (exists vmin vmax, forall p,
     lookup (image_plots (fst (initialize_plots t))) p =
       Some (Image (lookup (slice_controls t) p) vmin vmax)) /\
  forall p,
    lookup (crosshair_lines (fst (initialize_plots t))) p =
      let '(a, b) := crosshair_pos d p (lookup (slice_controls t) Sagittal)
                       (lookup (slice_controls t) Coronal) (lookup (slice_controls t) Axial) in
      (inject_Z a, inject_Z b).
Proof.
  destruct (initialize_plots_ret t d Hd Hw Hc) as [prm E]; rewrite E.
  match goal with |- context [(for_each planes ?f ;;; update_crosshairs) t] =>
    assert (EF : for_each planes f t = (fst (for_each planes f t), Ret tt)) by reflexivity;
    rewrite (bind_ret_eq _ _ _ _ _ EF); set (t1 := fst (for_each planes f t)) end.
  split; [| split].
  - intros p; rewrite update_crosshairs_keeps_temp.
    unfold t1; destruct p; reflexivity.
  - exists (fst prm), (snd prm); intros p; rewrite update_crosshairs_keeps_images.
    unfold t1; destruct p; reflexivity.
  - intros p; unfold update_crosshairs; rewrite bind_get; cbv beta.
    replace (data t1) with (Some d) by (unfold t1; cbn; congruence).
    replace (slice_controls t1) with (slice_controls t) by reflexivity.
    destruct p; reflexivity.
Qed.

(** Loading a volume with positive dimensions shows, in each view, the
    middle slice of that view's own axis, all with the same display range;
    the crosshairs sit at the middle cursor and the hover lines of every
    view are created, hidden. *)
Theorem load_draws_middle_slices (s : viewer) (d : volume) (Hw : well_formed_volume d) :
  (forall p, lookup (temp_lines (step s (EvLoad (Some d)))) p = Some (hidden_line, hidden_line)) /\
  (exists vmin vmax, forall p,
     lookup (image_plots (step s (EvLoad (Some d)))) p =
       Some (Image ((shape_at d (dim_index p) - 1) / 2) vmin vmax)) /\
  forall p,
    lookup (crosshair_lines (step s (EvLoad (Some d)))) p =
      let '(a, b) := crosshair_pos d p ((shape_at d 0 - 1) / 2) ((shape_at d 1 - 1) / 2)
                       ((shape_at d 2 - 1) / 2) in
      (inject_Z a, inject_Z b).
Proof.
  destruct (well_formed_dims d Hw) as (H0 & H1 & H2).
  unfold step, handle, load_nifti; rewrite try_any_ret_fst; cbn [bind modify].
  set (s0 := set_data (Some d) s).
  assert (EI : initialize_slice_positions s0 = (fst (initialize_slice_positions s0), Ret tt))
    by reflexivity.
  rewrite (bind_ret_eq _ _ _ _ _ EI); set (s1 := fst (initialize_slice_positions s0)).
  assert (Hs1 : forall p, lookup (slice_controls s1) p = (shape_at d (dim_index p) - 1) / 2)
    by (intros p; destruct p; reflexivity).
  assert (Hd1 : data s1 = Some d) by reflexivity.
  assert (Hc1 : cursor_in_range d (slice_controls s1)).
  { intros p; rewrite Hs1; apply middle_in_range; destruct p; cbn [dim_index]; lia. }
  destruct (initialize_plots_effect s1 d Hd1 Hw Hc1) as (Hh & (vmin & vmax & Hi) & Hx).
  split; [exact Hh | split].
  - exists vmin, vmax; intros p; rewrite Hi, Hs1; reflexivity.
  - intros p; rewrite Hx, (Hs1 Sagittal), (Hs1 Coronal), (Hs1 Axial); reflexivity.
Qed.

Lemma load_draws_middle_slices_witness :
  well_formed_volume volume_10_20_5 /\
  ((forall p, lookup (temp_lines (step hovered_10_20_30 (EvLoad (Some volume_10_20_5)))) p =
              Some (hidden_line, hidden_line)) /\
   (exists vmin vmax, forall p,
      lookup (image_plots (step hovered_10_20_30 (EvLoad (Some volume_10_20_5)))) p =
        Some (Image ((shape_at volume_10_20_5 (dim_index p) - 1) / 2) vmin vmax)) /\
   forall p,
     lookup (crosshair_lines (step hovered_10_20_30 (EvLoad (Some volume_10_20_5)))) p =
       let '(a, b) := crosshair_pos volume_10_20_5 p ((shape_at volume_10_20_5 0 - 1) / 2)
                        ((shape_at volume_10_20_5 1 - 1) / 2) ((shape_at volume_10_20_5 2 - 1) / 2) in
       (inject_Z a, inject_Z b)).
Proof.
  assert (Hw : well_formed_volume volume_10_20_5)
    by (cbv [well_formed_volume volume_10_20_5 ramp_volume shape]; lia).
  split; [exact Hw |].
  exact (load_draws_middle_slices hovered_10_20_30 volume_10_20_5 Hw).
Defined.

Lemma bind_raise_eq {A B} (m : M A) (k : A -> M B) (s s' : viewer) (e : exn) :
  m s = (s', Raise e) -> (x <- m ;; k x) s = (s', Raise e).
Proof. intros H; unfold bind; rewrite H; reflexivity. Qed.

(** Loading a volume with no voxel (a zero dimension): [self.data] and the
    slice positions are already set when np.min raises in
    [initialize_plots]; [except Exception] swallows the error and the images,
    crosshairs and hover lines of the previous volume stay on screen. *)
Theorem load_empty_volume_keeps_plots (s : viewer) (d : volume) (He : voxels d = []) :
  data (step s (EvLoad (Some d))) = Some d /\
  (forall p, lookup (slice_controls (step s (EvLoad (Some d)))) p =
             (shape_at d (dim_index p) - 1) / 2) /\
  image_plots (step s (EvLoad (Some d))) = image_plots s /\
  crosshair_lines (step s (EvLoad (Some d))) = crosshair_lines s /\
  temp_lines (step s (EvLoad (Some d))) = temp_lines s.
Proof.
  unfold step, handle, load_nifti; rewrite try_any_ret_fst; cbn [bind modify].
  set (s0 := set_data (Some d) s).
  assert (EI : initialize_slice_positions s0 = (fst (initialize_slice_positions s0), Ret tt))
    by reflexivity.
  rewrite (bind_ret_eq _ _ _ _ _ EI); set (s1 := fst (initialize_slice_positions s0)).
  assert (Hd1 : data s1 = Some d) by reflexivity.
  assert (Ep : get_slice_display_params s1 = (s1, Raise ValueError)).
  { unfold get_slice_display_params; rewrite bind_get; cbv beta; rewrite Hd1.
    unfold np_min; rewrite He; reflexivity. }
  unfold initialize_plots; rewrite bind_get; cbv beta; rewrite Hd1.
  rewrite (bind_raise_eq _ _ _ _ _ Ep); cbn [fst].
  split; [exact Hd1 | split; [intros p; destruct p; reflexivity | split; [| split]]];
    reflexivity.
Qed.

Lemma load_empty_volume_keeps_plots_witness :
  voxels (ramp_volume 0 4 4) = [] /\
  (data (step loaded_10_20_30 (EvLoad (Some (ramp_volume 0 4 4)))) = Some (ramp_volume 0 4 4) /\
   (forall p, lookup (slice_controls (step loaded_10_20_30 (EvLoad (Some (ramp_volume 0 4 4))))) p =
              (shape_at (ramp_volume 0 4 4) (dim_index p) - 1) / 2) /\
   image_plots (step loaded_10_20_30 (EvLoad (Some (ramp_volume 0 4 4)))) = image_plots loaded_10_20_30 /\
   crosshair_lines (step loaded_10_20_30 (EvLoad (Some (ramp_volume 0 4 4)))) =
     crosshair_lines loaded_10_20_30 /\
   temp_lines (step loaded_10_20_30 (EvLoad (Some (ramp_volume 0 4 4)))) = temp_lines loaded_10_20_30).
Proof.
  assert (He : voxels (ramp_volume 0 4 4) = []) by (vm_compute; reflexivity).
  split; [exact He |].
  exact (load_empty_volume_keeps_plots loaded_10_20_30 (ramp_volume 0 4 4) He).
Defined.
